(** * Cookie sessions, magic-link sign-in and route guards

    A shallow embedding of [app/utils/session.server.ts] and
    [app/utils/client.server.ts].

    The TypeScript code is asynchronous and effectful: it allocates
    mutable session objects, talks to a database, draws random
    identifiers and writes to the console.  All of that is threaded
    through one explicit [World]; a computation is a function from a
    world to an [Outcome] (a resolved value or a rejection) and the next
    world.  [await] is sequencing in that monad and [.catch] is
    [catch]. *)

From Stdlib Require Import ZArith Ascii String List.
From stdpp Require Import gmap strings list fin_maps pretty.

Local Open Scope string_scope.
Local Open Scope list_scope.

(** ** Values shared by every module *)

Definition Error := string.

Inductive Outcome (A : Type) : Type :=
| Resolved (a : A)
| Rejected (e : Error).
Arguments Resolved {A} a.
Arguments Rejected {A} e.

(** The part of Prisma's [User] the code reads: [user.id], the email
    the magic link proves control of, and [user.role], which the code
    compares with the string ['ADMIN']. *)
Record User := mkUser {
  user_id : string;
  user_email : string;
  user_role : string;
}.

(** A server-side session row. *)
Record SessionRecord := mkSessionRecord {
  record_id : string;
  record_userId : string;
  record_expirationDate : Z;
}.

(** Calls that reach the backing store, in the order they were made. *)
Inductive StoreCall :=
| FindUserByEmail (email : string)
| FindUserBySessionId (sessionId : string)
| CreateSessionRecord (userId : string)
| DeleteSessionRecord (sessionId : string).

(** The data of one cookie session: string keys; the code reads the
    values back [as string | undefined]. *)
Abbreviation SessionData := (gmap string string).

(** A request as the code uses it: [request.url] and
    [request.headers.get('Cookie')], which is [null] without the header. *)
Record Request := mkRequest {
  url : string;
  cookieHeader : option string;
}.

(** ** The world

    - [users], [sessionRecords]: the database;
    - [clock]: [Date.now()];
    - [faults]: which of the coming store calls fail, one flag per call
      ([true] = that call rejects; past the end of the list, calls
      get through);
    - [entropy], [drawn]: the source of random identifiers and how many
      were drawn;
    - [heap]: the session objects allocated so far; a session object is
      named by its index, so two handles on one object see each other's
      writes and two objects opened from one cookie do not;
    - [storeLog]: every call made to the store;
    - [console]: what [console.error] printed;
    - [detached]: session ids whose deletion was requested and not
      awaited. *)
Record World := mkWorld {
  users : list User;
  sessionRecords : gmap string SessionRecord;
  clock : Z;
  faults : list bool;
  entropy : nat -> string;
  drawn : nat;
  heap : list SessionData;
  storeLog : list StoreCall;
  console : list (string * Error);
  detached : list string;
}.

Definition with_sessionRecords (f : gmap string SessionRecord -> gmap string SessionRecord)
    (w : World) : World :=
  mkWorld (users w) (f (sessionRecords w)) (clock w) (faults w) (entropy w)
          (drawn w) (heap w) (storeLog w) (console w) (detached w).

Definition with_drawn (n : nat) (w : World) : World :=
  mkWorld (users w) (sessionRecords w) (clock w) (faults w) (entropy w)
          n (heap w) (storeLog w) (console w) (detached w).

Definition with_heap (f : list SessionData -> list SessionData) (w : World) : World :=
  mkWorld (users w) (sessionRecords w) (clock w) (faults w) (entropy w)
          (drawn w) (f (heap w)) (storeLog w) (console w) (detached w).

Definition with_storeCall (c : StoreCall) (w : World) : World :=
  mkWorld (users w) (sessionRecords w) (clock w) (tail (faults w)) (entropy w)
          (drawn w) (heap w) (storeLog w ++ [c]) (console w) (detached w).

Definition with_console (line : string * Error) (w : World) : World :=
  mkWorld (users w) (sessionRecords w) (clock w) (faults w) (entropy w)
          (drawn w) (heap w) (storeLog w) (console w ++ [line]) (detached w).

Definition with_detached (f : list string -> list string) (w : World) : World :=
  mkWorld (users w) (sessionRecords w) (clock w) (faults w) (entropy w)
          (drawn w) (heap w) (storeLog w) (console w) (f (detached w)).

(** ** Asynchronous computations *)

Definition Async (A : Type) : Type := World -> Outcome A * World.

Definition resolve {A} (a : A) : Async A := fun w => (Resolved a, w).

Definition reject {A} (e : Error) : Async A := fun w => (Rejected e, w).

(** [await m] followed by [k]: a rejection of [m] skips [k]. *)
Definition andThen {A B} (k : A -> Async B) (m : Async A) : Async B :=
  fun w =>
    match m w with
    | (Resolved a, w') => k a w'
    | (Rejected e, w') => (Rejected e, w')
    end.

(** [m.catch(handler)]. *)
Definition catch {A} (m : Async A) (handler : Error -> Async A) : Async A :=
  fun w =>
    match m w with
    | (Resolved a, w') => (Resolved a, w')
    | (Rejected e, w') => handler e w'
    end.

#[global] Instance Async_ret : MRet Async := @resolve.
#[global] Instance Async_bind : MBind Async := @andThen.

Definition gets {A} (f : World -> A) : Async A := fun w => (Resolved (f w), w).

Definition modify (f : World -> World) : Async unit := fun w => (Resolved tt, f w).

(** [console.error(message, error)]. *)
Definition console_error (message : string) (error : Error) : Async unit :=
  modify (with_console (message, error)).

(** The next random identifier. *)
Definition draw : Async string :=
  fun w => (Resolved (entropy w (drawn w)), with_drawn (S (drawn w)) w).

(** JavaScript truthiness of a [string | undefined]: [undefined] and the
    empty string are falsy. *)
Definition truthy (v : option string) : option string :=
  match v with
  | Some s => if String.eqb s "" then None else Some s
  | None => None
  end.

(** ** What the modules import and this development takes as given

    - the two cookie session storages made by Remix's
      [createCookieSessionStorage]: how a [Cookie] header decodes to
      session data and how session data serializes to a [Set-Cookie]
      value (signing included);
    - [validateMagicLink] of [prisma.server]: from the URL and the
      current time, the email address or a rejection;
    - [sessionExpirationTime] of [prisma.server]. *)
Record CookieSessionStorage := mkStorage {
  parseCookie : option string -> SessionData;
  serializeCookie : SessionData -> string;
}.

Class Env := mkEnv {
  sessionStorage : CookieSessionStorage;
  clientStorage : CookieSessionStorage;
  validateMagicLinkAt : string -> Z -> Outcome string;
  sessionExpirationTime : Z;
}.

(** ** The backing store *)

Module Prisma.
Section WithEnv.
Context `{Env}.

(** Modelled from the spec: [prisma.server.ts] is not among the sources.
    Every call to the store is logged and is "independently failable":
    it takes the next flag of [faults] and rejects when the flag is set. *)
Definition storeCall (c : StoreCall) : Async unit :=
  fun w =>
    match faults w with
    | true :: _ => (Rejected "store unavailable", with_storeCall c w)
    | _ => (Resolved tt, with_storeCall c w)
    end.

Definition findUserById (userId : string) (w : World) : option User :=
  List.find (fun u => String.eqb (user_id u) userId) (users w).

Definition findUserByEmail (email : string) (w : World) : option User :=
  List.find (fun u => String.eqb (user_email u) email) (users w).

(** Modelled from the spec: [getUserByEmail] of [prisma.server.ts]
    ("findUserByEmail(email)"; "if no such user exists, returns null"). *)
Definition getUserByEmail (email : string) : Async (option User) :=
  storeCall (FindUserByEmail email);;
  gets (findUserByEmail email).

(** Modelled from the spec: [getUserFromSessionId] of [prisma.server.ts]
    ("queries the external store for the user owning that session id";
    "store failure (session id not found / lookup error)"; a record is
    "implicitly invalid once expired (checked by the external store)"). *)
Definition getUserFromSessionId (sessionId : string) : Async User :=
  storeCall (FindUserBySessionId sessionId);;
  found ← gets (fun w => sessionRecords w !! sessionId);
  match found with
  | None => reject "No user found"
  | Some r =>
      now ← gets clock;
      if (record_expirationDate r <? now)%Z then reject "Session expired"
      else
        owner ← gets (findUserById (record_userId r));
        match owner with
        | Some u => resolve u
        | None => reject "No user found"
        end
  end.

(** Modelled from the spec: [createSession] of [prisma.server.ts]
    ("createSessionRecord(userId) -> {id}": a record "identified by a
    session id, associated with a user id and an expiration time"). The
    id is drawn at random; an id already in use is refused. *)
Definition createSession (userId : string) : Async SessionRecord :=
  storeCall (CreateSessionRecord userId);;
  newId ← draw;
  taken ← gets (fun w => sessionRecords w !! newId);
  match taken with
  | Some _ => reject "Unique constraint failed"
  | None =>
      now ← gets clock;
      let r := mkSessionRecord newId userId (now + sessionExpirationTime) in
      modify (with_sessionRecords (insert newId r));;
      resolve r
  end.

(** Modelled from the spec: [prisma.session.delete]
    ("deleteSessionRecord(id)"). *)
Definition deleteSession (sessionId : string) : Async unit :=
  storeCall (DeleteSessionRecord sessionId);;
  modify (with_sessionRecords (delete sessionId)).

(** [validateMagicLink(request.url)]: "yields an email address or
    throws"; the token is time-bounded, so the answer may depend on the
    clock. *)
Definition validateMagicLink (link : string) : Async string :=
  fun w => (validateMagicLinkAt link (clock w), w).

End WithEnv.
End Prisma.

(** ** What the code uses of Remix *)

Module Remix.

(** [storage.getSession(cookieHeader)]: a new session object holding
    what the header decodes to. *)
Definition getSession (storage : CookieSessionStorage) (cookie : option string)
    : Async nat :=
  fun w => (Resolved (length (heap w)),
            with_heap (fun objects => objects ++ [parseCookie storage cookie]) w).

(** The data of a session object (nothing for an index never allocated). *)
Definition dataOf (session : nat) (w : World) : SessionData :=
  default ∅ (heap w !! session).

(** [storage.commitSession(session)]: the [Set-Cookie] value for the
    session's current data. *)
Definition commitSession (storage : CookieSessionStorage) (session : nat)
    : Async string :=
  gets (fun w => serializeCookie storage (dataOf session w)).

(** [session.get(name)], [session.set(name, value)] and
    [session.unset(name)]; the last two write to the object in place. *)
Definition get (session : nat) (name : string) : Async (option string) :=
  gets (fun w => dataOf session w !! name).

Definition set (session : nat) (name value : string) : Async unit :=
  modify (with_heap (alter (insert name value) session)).

Definition unset (session : nat) (name : string) : Async unit :=
  modify (with_heap (alter (delete name) session)).

(** A [Headers] object is the list of its entries; [HeadersInit] is the
    three shapes [ResponseInit['headers']] allows. *)
Definition Headers := list (string * string).

Inductive HeadersInit :=
| HeadersObject (entries : Headers)
| HeadersArray (pairs : list (string * string))
| HeadersRecord (fields : gmap string string).

Definition Headers_append (name value : string) (h : Headers) : Headers :=
  h ++ [(name, value)].

Definition Headers_set (name value : string) (h : Headers) : Headers :=
  List.filter (fun entry => negb (String.eqb (fst entry) name)) h ++ [(name, value)].

Definition Headers_getAll (name : string) (h : Headers) : list string :=
  List.map snd (List.filter (fun entry => String.eqb (fst entry) name) h).

Definition Headers_has (name : string) (h : Headers) : bool :=
  existsb (fun entry => String.eqb (fst entry) name) h.

(** [new Headers(init)]. *)
Definition newHeaders (init : option HeadersInit) : Headers :=
  match init with
  | None => []
  | Some (HeadersObject entries) => entries
  | Some (HeadersArray pairs) => pairs
  | Some (HeadersRecord fields) => map_to_list fields
  end.

Record Response := mkResponse {
  status : Z;
  headers : Headers;
  body : string;
}.

(** [redirect(url, {headers})]: status 302 and a [Location] header set
    on a copy of the given headers. *)
Definition redirect (target : string) (init : option HeadersInit) : Response :=
  mkResponse 302 (Headers_set "Location" target (newHeaders init)) "".

End Remix.

(** ** [session.server.ts] *)

Module SessionServer.

Definition sessionIdKey : string := "__session_id__".

(** What the closures returned by [getSession] share: the session
    object and the serialized value captured when it was opened. *)
Record SessionHandle := mkHandle {
  session : nat;
  initialValue : string;
}.

(** The closures of the object [getSession] returns. *)
Module Handle.
Section WithEnv.
Context `{Env}.

Definition getSessionId (h : SessionHandle) : Async (option string) :=
  Remix.get (session h) sessionIdKey.

Definition unsetSessionId (h : SessionHandle) : Async unit :=
  Remix.unset (session h) sessionIdKey.

Definition commit (h : SessionHandle) : Async (option string) :=
  currentValue ← Remix.commitSession sessionStorage (session h);
  resolve (if String.eqb currentValue (initialValue h) then None
           else Some currentValue).

Definition getUser (h : SessionHandle) : Async (option User) :=
  token ← getSessionId h;
  match truthy token with
  | None => resolve None
  | Some token =>
      catch (user ← Prisma.getUserFromSessionId token; resolve (Some user))
            (fun error =>
               unsetSessionId h;;
               console_error "Failure getting user from session ID:" error;;
               resolve None)
  end.

Definition singIn (h : SessionHandle) (user : User) : Async unit :=
  userSession ← Prisma.createSession (user_id user);
  Remix.set (session h) sessionIdKey (record_id userSession).

(** The deletion of the record is requested and not awaited: it is left
    in [detached] for [settleDetached]. *)
Definition signOut (h : SessionHandle) : Async unit :=
  sessionId ← getSessionId h;
  match truthy sessionId with
  | Some sessionId =>
      unsetSessionId h;;
      modify (with_detached (fun pending => pending ++ [sessionId]))
  | None => resolve tt
  end.

Definition getHeaders (h : SessionHandle) (headers : option Remix.HeadersInit)
    : Async Remix.HeadersInit :=
  let headers := default (Remix.HeadersObject []) headers in
  value ← commit h;
  match truthy value with
  | None => resolve headers
  | Some value =>
      resolve
        match headers with
        | Remix.HeadersObject entries =>
            Remix.HeadersObject (Remix.Headers_append "Set-Cookie" value entries)
        | Remix.HeadersArray pairs =>
            Remix.HeadersArray (pairs ++ [("Set-Cookie", value)])
        | Remix.HeadersRecord fields =>
            Remix.HeadersRecord (<["Set-Cookie" := value]> fields)
        end
  end.

End WithEnv.
End Handle.

Section WithEnv.
Context `{Env}.

(** The deletions [signOut] left behind, run to completion: a failure
    is printed and goes no further. *)
Fixpoint settle (pending : list string) : Async unit :=
  match pending with
  | [] => resolve tt
  | sessionId :: rest =>
      catch (Prisma.deleteSession sessionId)
            (fun error => console_error "Failure deleting user session: " error);;
      settle rest
  end.

Definition settleDetached : Async unit :=
  fun w => settle (detached w) (with_detached (fun _ => []) w).

Definition getSession (request : Request) : Async SessionHandle :=
  session ← Remix.getSession sessionStorage (cookieHeader request);
  initialValue ← Remix.commitSession sessionStorage session;
  resolve (mkHandle session initialValue).

Definition getUser (request : Request) : Async (option User) :=
  h ← getSession request;
  token ← Remix.get (session h) sessionIdKey;
  match truthy token with
  | None => resolve None
  | Some token =>
      catch (user ← Prisma.getUserFromSessionId token; resolve (Some user))
            (fun error =>
               console_error "Failure getting user from session ID:" error;;
               resolve None)
  end.

Definition getUserSessionFromMagicLink (request : Request)
    : Async (option SessionHandle) :=
  email ← Prisma.validateMagicLink (url request);
  user ← Prisma.getUserByEmail email;
  match user with
  | None => resolve None
  | Some user =>
      session ← getSession request;
      Handle.singIn session user;;
      resolve (Some session)
  end.

Definition requireAdminUser (request : Request)
    (callback : User -> Async Remix.Response) : Async Remix.Response :=
  user ← getUser request;
  match user with
  | None =>
      session ← getSession request;
      Handle.signOut session;;
      headers ← Handle.getHeaders session None;
      resolve (Remix.redirect "/login" (Some headers))
  | Some user =>
      if negb (String.eqb (user_role user) "ADMIN")
      then resolve (Remix.redirect "/" None)
      else callback user
  end.

Definition requireUser (request : Request)
    (callback : User -> Async Remix.Response) : Async Remix.Response :=
  user ← getUser request;
  match user with
  | None =>
      session ← getSession request;
      Handle.signOut session;;
      headers ← Handle.getHeaders session None;
      resolve (Remix.redirect "/login" (Some headers))
  | Some user => callback user
  end.

End WithEnv.
(** [sendToken].  [getMagicLink] (of [prisma.server]) and
    [sendMagicLinkEmail] (of [send-email.server]) are imported; they
    are taken as given: the first may read the world (the link is
    time-bounded), the second is any computation. *)
Section SendToken.
Context `{Env}.
Variable getMagicLink : string -> string -> Async string.
Variable sendMagicLinkEmail : string -> string -> bool -> Async unit.

Definition sendToken (emailAddress domainUrl : string) : Async unit :=
  confirmationLink ← getMagicLink emailAddress domainUrl;
  user ← catch (Prisma.getUserByEmail emailAddress)
               (fun _ => (* ignore... *) resolve None);
  sendMagicLinkEmail emailAddress confirmationLink
    (match user with Some _ => true | None => false end).

End SendToken.

End SessionServer.

(** ** [client.server.ts] *)

Module ClientServer.

Record ClientHandle := mkHandle {
  session : nat;
  initialValue : string;
}.

(** [uuid.v4()]. *)
Definition uuid_v4 : Async string := draw.

(** The closures of the object [getClientSession] returns. *)
Module Handle.
Section WithEnv.
Context `{Env}.

Definition commit (h : ClientHandle) : Async (option string) :=
  currentValue ← Remix.commitSession clientStorage (session h);
  resolve (if String.eqb currentValue (initialValue h) then None
           else Some currentValue).

Definition getClientId (h : ClientHandle) : Async string :=
  clientId ← Remix.get (session h) "clientId";
  match clientId with
  | Some clientId => resolve clientId
  | None =>
      clientId ← uuid_v4;
      Remix.set (session h) "clientId" clientId;;
      resolve clientId
  end.

Definition getHeaders (h : ClientHandle) (headers : option Remix.HeadersInit)
    : Async Remix.HeadersInit :=
  let headers := default (Remix.HeadersObject []) headers in
  value ← commit h;
  match truthy value with
  | None => resolve headers
  | Some value =>
      resolve
        match headers with
        | Remix.HeadersObject entries =>
            Remix.HeadersObject (Remix.Headers_append "Set-Cookie" value entries)
        | Remix.HeadersArray pairs =>
            Remix.HeadersArray (pairs ++ [("Set-Cookie", value)])
        | Remix.HeadersRecord fields =>
            Remix.HeadersRecord (<["Set-Cookie" := value]> fields)
        end
  end.

End WithEnv.
End Handle.

Section WithEnv.
Context `{Env}.

Definition getClientSession (request : Request) : Async ClientHandle :=
  session ← Remix.getSession clientStorage (cookieHeader request);
  initialValue ← Remix.commitSession clientStorage session;
  let h := mkHandle session initialValue in
  Handle.getClientId h;;
  resolve h.

End WithEnv.
End ClientServer.

(** ** [routes/blog.tsx]: which posts the blog page lists

    The parts of [BlogHome] that are computed from the loader data and
    the component state: the filter by leading team and the window of
    posts shown. *)

Module BlogRoute.

(** What [BlogHome] reads of an [MdxListItem]. *)
Record MdxListItem := mkPost {
  slug : string;
  categories : option (list string);
}.

Definition PAGE_SIZE : nat := 12.

Definition initialIndexToShow : nat := PAGE_SIZE.

(** [teams.includes(team)]. *)
Definition includes (teams : list string) (team : string) : bool :=
  existsb (String.eqb team) teams.

Section Matching.

(** [getLeadingTeamForSlug]: the team leading the reads of a post, if
    any ([getRankingLeader] is imported). *)
Variable getLeadingTeamForSlug : string -> option string.

(** The [teamPosts] of [matchingPosts], from the teams named by
    [leader:] and [!leader:] terms of the query. *)
Definition teamPosts (leaders nonLeaders : list string)
    (allPosts : list MdxListItem) : list MdxListItem :=
  if negb (Nat.eqb (length leaders) 0) || negb (Nat.eqb (length nonLeaders) 0) then
    List.filter
      (fun post =>
         let leader := truthy (getLeadingTeamForSlug (slug post)) in
         if negb (Nat.eqb (length leaders) 0)
            && match leader with Some team => includes leaders team | None => false end
         then true
         else if negb (Nat.eqb (length nonLeaders) 0)
                 && match leader with
                    | Some team => negb (includes nonLeaders team)
                    | None => true
                    end
         then true
         else false)
      allPosts
  else allPosts.

End Matching.

(** [posts]: the window of [matchingPosts] the page shows; outside a
    search the recommended post, shown apart, is left out of it. *)
Definition posts (isSearching : bool) (matchingPosts : list MdxListItem)
    (indexToShow : nat) (recommended : option MdxListItem) : list MdxListItem :=
  if isSearching then take indexToShow matchingPosts
  else
    List.filter
      (fun p =>
         match recommended with
         | Some r => negb (String.eqb (slug p) (slug r))
         | None => true
         end)
      (take indexToShow matchingPosts).

(** [hasMorePosts]: whether the "Load more articles" button is shown. *)
Definition hasMorePosts (isSearching : bool) (matchingPosts : list MdxListItem)
    (indexToShow : nat) : bool :=
  if isSearching then (Z.of_nat indexToShow <? Z.of_nat (length matchingPosts))%Z
  else (Z.of_nat indexToShow <? Z.of_nat (length matchingPosts) - 1)%Z.

(** The button's [onClick]. *)
Definition loadMore (indexToShow : nat) : nat := indexToShow + PAGE_SIZE.

End BlogRoute.

(** ** Notions used in the statements *)

(** The world right after a storage opened a session for [request]:
    one more session object, holding what the cookie decodes to. *)
Definition opened (storage : CookieSessionStorage) (request : Request)
    (w : World) : World :=
  with_heap (fun objects => objects ++ [parseCookie storage (cookieHeader request)]) w.

(** The next call to the store gets through. *)
Definition storeAnswers (w : World) : Prop := head (faults w) ≠ Some true.

(** The data of the client session right after [getClientSession]
    opened it for [request], and what [commit] returns at that point. *)
Definition clientDataAfterOpen `{Env} (request : Request) (w : World) : SessionData :=
  Remix.dataOf (length (heap w)) (snd (ClientServer.getClientSession request w)).

(** A collection of headers passed through the client session's
    [getHeaders] and then the session's. *)
Definition bothHeaders `{Env} (client : ClientServer.ClientHandle)
    (auth : SessionServer.SessionHandle) (headers : option Remix.HeadersInit)
    : Async Remix.HeadersInit :=
  withClient ← ClientServer.Handle.getHeaders client headers;
  SessionServer.Handle.getHeaders auth (Some withClient).

Definition firstCommit `{Env} (request : Request) (w : World) : option string :=
  match ClientServer.getClientSession request w with
  | (Resolved h, w1) =>
      match ClientServer.Handle.commit h w1 with
      | (Resolved committed, _) => committed
      | (Rejected _, _) => None
      end
  | (Rejected _, _) => None
  end.

(** ** A concrete instance

    A small cookie codec, a database and a few requests on which the
    embedding can be run.  The codec keeps one key per cookie: the
    cookie [name=value; Path=/; SameSite=Lax] stands for the session
    [{key: value}], and a header without the cookie, or with an empty
    value, for the empty session. *)

Module Demo.

Fixpoint splitOn (sep : ascii) (s : string) : list string :=
  match s with
  | EmptyString => [EmptyString]
  | String c rest =>
      if Ascii.eqb c sep then EmptyString :: splitOn sep rest
      else match splitOn sep rest with
           | [] => [String c EmptyString]
           | part :: parts => String c part :: parts
           end
  end.

Fixpoint dropSpaces (s : string) : string :=
  match s with
  | String c rest => if Ascii.eqb c " " then dropSpaces rest else s
  | EmptyString => s
  end.

Fixpoint stripPrefix (prefix s : string) : option string :=
  match prefix, s with
  | EmptyString, _ => Some s
  | String a prefix', String b s' =>
      if Ascii.eqb a b then stripPrefix prefix' s' else None
  | String _ _, EmptyString => None
  end.

Fixpoint firstSome {A B} (f : A -> option B) (l : list A) : option B :=
  match l with
  | [] => None
  | x :: rest => match f x with Some y => Some y | None => firstSome f rest end
  end.

(** The value of the cookie called [name] in a [Cookie] header. *)
Definition cookieValue (name header : string) : option string :=
  firstSome (fun part => stripPrefix (name ++ "=")%string (dropSpaces part))
            (splitOn ";" header).

Definition storage (name key : string) : CookieSessionStorage :=
  mkStorage
    (fun header =>
       match header ≫= cookieValue name with
       | Some value => if String.eqb value "" then ∅ else {[ key := value ]}
       | None => ∅
       end)
    (fun data =>
       (name ++ "=" ++ default "" (data !! key) ++ "; Path=/; SameSite=Lax")%string).

Definition validate (link : string) (now : Z) : Outcome string :=
  match stripPrefix "https://example.com/magic?email=" link with
  | Some address =>
      if String.eqb address "" then Rejected "Invalid magic link"
      else if (now <? 1000)%Z then Resolved address
      else Rejected "Magic link expired"
  | None => Rejected "Invalid magic link"
  end.

#[export] Instance env : Env :=
  mkEnv (storage "KCD_root_session" SessionServer.sessionIdKey)
        (storage "KCD_client_id" "clientId")
        validate
        31536000000.

Definition kody : User := mkUser "u1" "kody@example.com" "MEMBER".
Definition kent : User := mkUser "u2" "kent@example.com" "ADMIN".

(** A database with two users; [kody] holds the live session [s1] and
    the expired session [s0]. *)
Definition world : World :=
  mkWorld [kody; kent]
          {[ "s1" := mkSessionRecord "s1" "u1" 5000;
             "s0" := mkSessionRecord "s0" "u1" 10 ]}
          100 [] (fun n => "uuid-" +:+ pretty n) 0 [] [] [] [].

(** The same database when the next call to it fails. *)
Definition outage : World :=
  mkWorld (users world) (sessionRecords world) (clock world) [true]
          (entropy world) (drawn world) (heap world) (storeLog world)
          (console world) (detached world).

Definition anonymous : Request := mkRequest "https://example.com/" None.

Definition signedIn : Request :=
  mkRequest "https://example.com/" (Some "KCD_root_session=s1").

Definition stale : Request :=
  mkRequest "https://example.com/" (Some "KCD_root_session=gone; KCD_client_id=c7").

Definition magic (address : string) : Request :=
  mkRequest ("https://example.com/magic?email=" ++ address)%string None.

Definition page (user : User) : Async Remix.Response :=
  resolve (Remix.mkResponse 200 [] (user_email user)).

(** The session cookie without a session id, and the client cookie
    issued to the first visitor of [world]. *)
Definition cleared : string := "KCD_root_session=; Path=/; SameSite=Lax".

Definition issued : string := "KCD_client_id=uuid-0; Path=/; SameSite=Lax".

(** A link maker and a mailer that prints the message instead of
    sending it. *)
Definition makeLink (emailAddress domainUrl : string) : Async string :=
  resolve (domainUrl ++ "/magic?email=" ++ emailAddress)%string.

Definition printMail (emailAddress confirmationLink : string) (userExists : bool)
    : Async unit :=
  console_error (if userExists then "Welcome back" else "Welcome")
                confirmationLink.

(** Three posts, the first read most by [RED], the second by [BLUE]. *)
Definition blogPosts : list BlogRoute.MdxListItem :=
  [BlogRoute.mkPost "a" (Some ["react"]); BlogRoute.mkPost "b" None;
   BlogRoute.mkPost "c" (Some ["testing"])].

Definition leadingTeam (slug : string) : option string :=
  if String.eqb slug "a" then Some "RED"
  else if String.eqb slug "b" then Some "BLUE" else None.

(** [world] with one more record, a live session of [kent], and a
    request that carries it. *)
Definition staffed : World :=
  with_sessionRecords (insert "s2" (mkSessionRecord "s2" "u2" 5000)) world.

Definition admin : Request :=
  mkRequest "https://example.com/admin" (Some "KCD_root_session=s2").

(** The same database as [world] when the second call to it fails. *)
Definition flaky : World :=
  mkWorld (users world) (sessionRecords world) (clock world) [false; true]
          (entropy world) (drawn world) (heap world) (storeLog world)
          (console world) (detached world).

(** A first visitor's client session and the session of [stale],
    signed out, open side by side. *)
Definition visitor : ClientServer.ClientHandle :=
  ClientServer.mkHandle 0 "KCD_client_id=; Path=/; SameSite=Lax".

Definition leaving : SessionServer.SessionHandle :=
  SessionServer.mkHandle 1 "KCD_root_session=gone; Path=/; SameSite=Lax".

Definition sideBySide : World :=
  snd ((ClientServer.getClientSession anonymous;;
        h ← SessionServer.getSession stale;
        SessionServer.Handle.signOut h) world).

End Demo.

(** * Properties *)

Create HintDb async.

#[local] Hint Unfold
  mbind mret Async_bind Async_ret andThen catch resolve reject gets modify
  console_error draw
  Prisma.storeCall Prisma.getUserByEmail Prisma.getUserFromSessionId
  Prisma.createSession Prisma.deleteSession Prisma.validateMagicLink
  Remix.getSession Remix.commitSession Remix.get Remix.set Remix.unset
  SessionServer.Handle.getSessionId SessionServer.Handle.unsetSessionId
  SessionServer.Handle.commit SessionServer.Handle.getUser
  SessionServer.Handle.singIn SessionServer.Handle.signOut
  SessionServer.Handle.getHeaders
  SessionServer.getSession SessionServer.getUser
  SessionServer.getUserSessionFromMagicLink
  SessionServer.requireAdminUser SessionServer.requireUser
  ClientServer.uuid_v4 ClientServer.Handle.commit
  ClientServer.Handle.getClientId ClientServer.Handle.getHeaders
  ClientServer.getClientSession
  opened : async.

Ltac run := autounfold with async; cbn.

Section Heap.

Implicit Types (objects : list SessionData) (data : SessionData).

Lemma lookup_allocated objects data :
  (objects ++ [data]) !! length objects = Some data.
Proof. by apply list_lookup_middle. Qed.

Lemma alter_allocated (f : SessionData -> SessionData) objects data :
  alter f (length objects) (objects ++ [data]) = objects ++ [f data].
Proof.
  rewrite alter_app_r_alt by lia.
  by replace (length objects - length objects) with 0 by lia.
Qed.

Lemma dataOf_opened storage request w :
  Remix.dataOf (length (heap w)) (opened storage request w)
  = parseCookie storage (cookieHeader request).
Proof. unfold Remix.dataOf, opened. cbn. by rewrite lookup_allocated. Qed.

End Heap.

Lemma truthy_Some v s : truthy v = Some s -> v = Some s /\ s ≠ "".
Proof.
  destruct v as [t|]; cbn; [|done].
  destruct (String.eqb_spec t ""); [done|]. by intros [= ->].
Qed.

Lemma truthy_intro s : s ≠ "" -> truthy (Some s) = Some s.
Proof. intros Hs. cbn. by destruct (String.eqb_spec s ""). Qed.

Section SessionProperties.
Context `{Env}.
Import SessionServer.

(** Opening a session never fails: it allocates one object and records
    its serialized value. *)
Lemma getSession_run request w :
  getSession request w
  = (Resolved (mkHandle (length (heap w))
                 (serializeCookie sessionStorage
                    (parseCookie sessionStorage (cookieHeader request)))),
     opened sessionStorage request w).
Proof.
  run. unfold Remix.dataOf. cbn. by rewrite lookup_allocated.
Qed.

Lemma commit_run h w :
  Handle.commit h w
  = (Resolved (if String.eqb (serializeCookie sessionStorage (Remix.dataOf (session h) w))
                             (initialValue h)
               then None
               else Some (serializeCookie sessionStorage (Remix.dataOf (session h) w))),
     w).
Proof. reflexivity. Qed.

(** C2.  A session opened by [getSession] whose data is, at the time of
    [commit], what it was when it was opened (no [set] or [unset] took
    effect on it) commits to [null]: opening always succeeds, and
    [commit] then returns [null] and leaves the world as it is. *)
Theorem commit_unchanged_session_is_null (request : Request) (w : World) :
  exists h w1,
    getSession request w = (Resolved h, w1) /\
    forall w2,
      Remix.dataOf (session h) w2 = Remix.dataOf (session h) w1 ->
      Handle.commit h w2 = (Resolved None, w2).
Proof.
  eexists _, _. split; [apply getSession_run|].
  intros w2 Hsame. rewrite commit_run, Hsame. cbn [session initialValue].
  by rewrite dataOf_opened, String.eqb_refl.
Qed.

(** The store's lookup by session id only reads: whatever its outcome,
    the world changes by the logged call alone. *)
Lemma getUserFromSessionId_world token w :
  snd (Prisma.getUserFromSessionId token w)
  = with_storeCall (FindUserBySessionId token) w.
Proof.
  unfold Prisma.getUserFromSessionId, Prisma.storeCall.
  autounfold with async.
  destruct (faults w) as [|[] ?]; cbn; try done;
    (destruct (sessionRecords w !! token) as [r|]; cbn; [|done];
     destruct (record_expirationDate r <? clock w)%Z; cbn; [done|];
     by destruct (List.find _ _)).
Qed.

Lemma getUserByEmail_world email w :
  snd (Prisma.getUserByEmail email w) = with_storeCall (FindUserByEmail email) w.
Proof. run. by destruct (faults w) as [|[] ?]. Qed.

(** What the module's [getUser] does, in terms of the decoded cookie. *)
Lemma getUser_run request w :
  getUser request w
  = match truthy (parseCookie sessionStorage (cookieHeader request) !! sessionIdKey) with
    | None => (Resolved None, opened sessionStorage request w)
    | Some token =>
        match Prisma.getUserFromSessionId token (opened sessionStorage request w) with
        | (Resolved user, w') => (Resolved (Some user), w')
        | (Rejected error, w') =>
            (Resolved None,
             with_console ("Failure getting user from session ID:", error) w')
        end
    end.
Proof.
  unfold getUser. unfold mbind at 1, Async_bind, andThen.
  rewrite getSession_run. cbn [session].
  unfold mbind at 1, Async_bind, andThen, Remix.get, gets.
  rewrite dataOf_opened.
  destruct (truthy _) as [token|]; [|done].
  unfold catch, mbind, Async_bind, andThen.
  by destruct (Prisma.getUserFromSessionId token _) as [[user|error] w'].
Qed.

(** C3.  A request without a [Cookie] header, for which the storage
    yields a session with no session id, resolves to no user; the only
    effect is the session object [getUser] opened: the store is not
    called (its log and its pending faults are as before) and nothing
    is printed. *)
Theorem getUser_without_cookie (request : Request) (w : World) :
  cookieHeader request = None ->
  parseCookie sessionStorage None !! sessionIdKey = None ->
  getUser request w = (Resolved None, opened sessionStorage request w) /\
  storeLog (opened sessionStorage request w) = storeLog w /\
  faults (opened sessionStorage request w) = faults w /\
  console (opened sessionStorage request w) = console w.
Proof.
  intros Hcookie Hkey. split; [|done].
  by rewrite getUser_run, Hcookie, Hkey.
Qed.

(** C4.  When the link validates to an email and the store's lookup by
    that email resolves to [null], the result is [null], not a
    rejection; the only thing that happened is that lookup: the users
    and the session records are as before, no session object was
    opened, and the store saw no other call (no record was created). *)
Theorem magic_link_unknown_email (request : Request) (w w1 : World) (email : string) :
  validateMagicLinkAt (url request) (clock w) = Resolved email ->
  Prisma.getUserByEmail email w = (Resolved None, w1) ->
  getUserSessionFromMagicLink request w = (Resolved None, w1) /\
  users w1 = users w /\
  sessionRecords w1 = sessionRecords w /\
  heap w1 = heap w /\
  storeLog w1 = storeLog w ++ [FindUserByEmail email].
Proof.
  intros Hvalid Hlookup.
  pose proof (getUserByEmail_world email w) as Hw. rewrite Hlookup in Hw.
  cbn in Hw. subst w1. split; [|done].
  unfold getUserSessionFromMagicLink, Prisma.validateMagicLink.
  unfold mbind at 1, Async_bind, andThen. rewrite Hvalid.
  unfold mbind at 1, Async_bind, andThen. by rewrite Hlookup.
Qed.

(** C5.  When [validateMagicLink] rejects, [getUserSessionFromMagicLink]
    rejects with the same error and has done nothing else: no lookup,
    no session, nothing printed. *)
Theorem magic_link_failure_propagates (request : Request) (w : World) (e : Error) :
  validateMagicLinkAt (url request) (clock w) = Rejected e ->
  getUserSessionFromMagicLink request w = (Rejected e, w).
Proof.
  intros Hinvalid.
  unfold getUserSessionFromMagicLink, Prisma.validateMagicLink.
  unfold mbind at 1, Async_bind, andThen. by rewrite Hinvalid.
Qed.

(** C8.  When [getUser] resolves to a user whose role is not ['ADMIN'],
    [requireAdminUser] answers with a redirect to ['/'] whose only
    header is [Location]; the callback is not run, and the world is the
    one [getUser] left: the one session object it opened still holds
    what the cookie decoded to, session id included, no deletion was
    requested and the session records are as before. *)
Theorem requireAdminUser_non_admin (request : Request)
    (callback : User -> Async Remix.Response) (w w1 : World) (user : User) :
  getUser request w = (Resolved (Some user), w1) ->
  user_role user ≠ "ADMIN" ->
  requireAdminUser request callback w
  = (Resolved (Remix.mkResponse 302 [("Location", "/")] ""), w1) /\
  heap w1 = heap w ++ [parseCookie sessionStorage (cookieHeader request)] /\
  (exists token,
      parseCookie sessionStorage (cookieHeader request) !! sessionIdKey = Some token /\
      token ≠ "") /\
  detached w1 = detached w /\
  sessionRecords w1 = sessionRecords w.
Proof.
  intros Huser Hrole. split.
  - unfold requireAdminUser. unfold mbind at 1, Async_bind, andThen.
    rewrite Huser. by destruct (String.eqb_spec (user_role user) "ADMIN").
  - rewrite getUser_run in Huser.
    destruct (truthy _) as [token|] eqn:Htoken; [|done].
    apply truthy_Some in Htoken as [Hkey Hne].
    pose proof (getUserFromSessionId_world token (opened sessionStorage request w)) as Hw.
    destruct (Prisma.getUserFromSessionId token _) as [[u|e] w'']; [|done].
    injection Huser as -> ->. cbn in Hw. subst w1. cbn. eauto 10.
Qed.

(** Unsetting a key of a live session object removes it from that
    object's data. *)
Lemma dataOf_alter (f : SessionData -> SessionData) i w :
  is_Some (heap w !! i) ->
  Remix.dataOf i (with_heap (alter f i) w) = f (Remix.dataOf i w).
Proof.
  intros [data Hdata]. unfold Remix.dataOf. cbn.
  by rewrite list_lookup_alter_eq, Hdata.
Qed.

Lemma opened_live storage request w :
  is_Some (heap (opened storage request w) !! length (heap w)).
Proof. unfold opened. cbn. rewrite lookup_allocated. eauto. Qed.

Lemma signOut_run h w :
  Handle.signOut h w
  = match truthy (Remix.dataOf (session h) w !! sessionIdKey) with
    | Some sessionId =>
        (Resolved tt,
         with_detached (fun pending => pending ++ [sessionId])
           (with_heap (alter (delete sessionIdKey) (session h)) w))
    | None => (Resolved tt, w)
    end.
Proof.
  unfold Handle.signOut, Handle.getSessionId, Handle.unsetSessionId.
  unfold Remix.get, Remix.unset, mbind, Async_bind, andThen, gets, modify.
  by destruct (truthy _).
Qed.

Lemma getHeaders_run h w :
  let current := serializeCookie sessionStorage (Remix.dataOf (session h) w) in
  Handle.getHeaders h None w
  = (Resolved
       match truthy (if String.eqb current (initialValue h) then None
                     else Some current) with
       | None => Remix.HeadersObject []
       | Some value => Remix.HeadersObject [("Set-Cookie", value)]
       end, w).
Proof.
  unfold Handle.getHeaders. unfold mbind at 1, Async_bind, andThen.
  rewrite commit_run. cbn [fst default].
  by destruct (String.eqb _ _); cbn; [|destruct (String.eqb _ _)].
Qed.

(** C1, as the code has it.  When [getUser] resolves to no user,
    [requireUser] answers with a redirect to ['/login'] and does not
    run the callback.  If the session decoded from the request holds a
    non-empty session id, that id is removed from the session, the
    deletion of its record is requested, and (when the session
    serializes to a non-empty value that differs from the one captured
    at opening) the response carries exactly one [Set-Cookie] header:
    the session serialized without the id.  If the session holds no
    session id, the response carries no [Set-Cookie] header at all. *)
Theorem requireUser_absent_user (request : Request)
    (callback : User -> Async Remix.Response) (w w1 : World) :
  getUser request w = (Resolved None, w1) ->
  let data := parseCookie sessionStorage (cookieHeader request) in
  let cleared := serializeCookie sessionStorage (delete sessionIdKey data) in
  exists response w2,
    requireUser request callback w = (Resolved response, w2) /\
    Remix.status response = 302%Z /\
    Remix.Headers_getAll "Location" (Remix.headers response) = ["/login"] /\
    match truthy (data !! sessionIdKey) with
    | Some staleId =>
        Remix.dataOf (length (heap w1)) w2 = delete sessionIdKey data /\
        detached w2 = detached w1 ++ [staleId] /\
        (cleared ≠ serializeCookie sessionStorage data -> cleared ≠ "" ->
         Remix.Headers_getAll "Set-Cookie" (Remix.headers response) = [cleared])
    | None =>
        Remix.Headers_has "Set-Cookie" (Remix.headers response) = false /\
        w2 = opened sessionStorage request w1
    end.
Proof.
  intros Huser data cleared.
  unfold requireUser. unfold mbind at 1, Async_bind, andThen. rewrite Huser.
  unfold mbind at 1, Async_bind, andThen. rewrite getSession_run.
  unfold mbind at 1, Async_bind, andThen. rewrite signOut_run.
  cbn [session]. rewrite dataOf_opened. fold data.
  destruct (truthy (data !! sessionIdKey)) as [staleId|] eqn:Hid.
  - unfold mbind, Async_bind, andThen. rewrite getHeaders_run.
    cbn [session initialValue].
    assert (Remix.dataOf (length (heap w1))
              (with_detached (fun pending => pending ++ [staleId])
                 (with_heap (alter (delete sessionIdKey) (length (heap w1)))
                    (opened sessionStorage request w1)))
            = delete sessionIdKey data) as Hdata.
    { change (Remix.dataOf ?i (with_detached ?f ?w')) with (Remix.dataOf i w').
      rewrite dataOf_alter by apply opened_live. by rewrite dataOf_opened. }
    rewrite Hdata. fold data cleared.
    eexists _, _. split; [reflexivity|].
    destruct (String.eqb_spec cleared (serializeCookie sessionStorage data));
      [|destruct (String.eqb_spec cleared "") as [Hempty|Hfull]].
    + cbn. repeat split; done.
    + cbn. rewrite Hempty. cbn. repeat split; done.
    + rewrite (truthy_intro _ Hfull). cbn. repeat split; done.
  - unfold mbind, Async_bind, andThen. rewrite getHeaders_run.
    cbn [session initialValue]. rewrite dataOf_opened. fold data.
    rewrite String.eqb_refl. cbn. eexists _, _. done.
Qed.

(** What the handle's [getUser] does: like the module's, except that a
    failed lookup also unsets the session id on the handle's session. *)
Lemma handle_getUser_run h w :
  Handle.getUser h w
  = match truthy (Remix.dataOf (session h) w !! sessionIdKey) with
    | None => (Resolved None, w)
    | Some token =>
        match Prisma.getUserFromSessionId token w with
        | (Resolved user, w') => (Resolved (Some user), w')
        | (Rejected error, w') =>
            (Resolved None,
             with_console ("Failure getting user from session ID:", error)
               (with_heap (alter (delete sessionIdKey) (session h)) w'))
        end
    end.
Proof.
  unfold Handle.getUser, Handle.getSessionId, Handle.unsetSessionId.
  unfold mbind at 1, Async_bind, andThen, Remix.get, gets.
  destruct (truthy _) as [token|]; [|done].
  unfold catch, mbind, Async_bind, andThen.
  by destruct (Prisma.getUserFromSessionId token w) as [[user|error] w'].
Qed.

(** C9.  Take a request whose session holds a non-empty session id for
    which the store's lookup rejects, and a storage that serializes the
    session without the id differently from the session with it.  On
    the handle of [getSession], [getUser] resolves to [null], prints
    the failure and removes the id from the session, so that [commit]
    afterwards returns the session serialized without the id.  The
    module's [getUser] also resolves to [null] and prints the failure,
    and the session object it opened still holds the id. *)
Theorem getUser_lookup_failure (request : Request) (w : World)
    (token : string) (e : Error) :
  let data := parseCookie sessionStorage (cookieHeader request) in
  let cleared := serializeCookie sessionStorage (delete sessionIdKey data) in
  let failure := ("Failure getting user from session ID:", e) in
  data !! sessionIdKey = Some token ->
  token ≠ "" ->
  fst (Prisma.getUserFromSessionId token (opened sessionStorage request w)) = Rejected e ->
  cleared ≠ serializeCookie sessionStorage data ->
  (exists h w1 w2,
      getSession request w = (Resolved h, w1) /\
      Handle.getUser h w1 = (Resolved None, w2) /\
      console w2 = console w ++ [failure] /\
      Handle.getSessionId h w2 = (Resolved None, w2) /\
      Handle.commit h w2 = (Resolved (Some cleared), w2)) /\
  (exists w3,
      getUser request w = (Resolved None, w3) /\
      console w3 = console w ++ [failure] /\
      Remix.get (length (heap w)) sessionIdKey w3 = (Resolved (Some token), w3)).
Proof.
  intros data cleared failure Hkey Hne Hfail Hcodec.
  pose proof (getUserFromSessionId_world token (opened sessionStorage request w)) as Hw.
  destruct (Prisma.getUserFromSessionId token _) as [[user|e'] w'] eqn:Hlookup;
    cbn in Hfail, Hw; [done|]. injection Hfail as ->. subst w'.
  assert (truthy (data !! sessionIdKey) = Some token) as Htruthy
    by (rewrite Hkey; by apply truthy_intro).
  split.
  - eexists _, _, _. split; [apply getSession_run|].
    rewrite handle_getUser_run. cbn [session initialValue].
    rewrite dataOf_opened. fold data. rewrite Htruthy, Hlookup.
    split; [reflexivity|]. split; [reflexivity|].
    assert (Remix.dataOf (length (heap w))
              (with_console failure
                 (with_heap (alter (delete sessionIdKey) (length (heap w)))
                    (with_storeCall (FindUserBySessionId token)
                       (opened sessionStorage request w))))
            = delete sessionIdKey data) as Hdata.
    { change (Remix.dataOf ?i (with_console ?l ?w')) with (Remix.dataOf i w').
      rewrite dataOf_alter.
      - change (Remix.dataOf ?i (with_storeCall ?c ?w')) with (Remix.dataOf i w').
        by rewrite dataOf_opened.
      - apply (opened_live sessionStorage request w). }
    split.
    + unfold Handle.getSessionId, Remix.get, gets. cbn [session].
      fold failure. by rewrite Hdata, lookup_delete_eq.
    + rewrite commit_run. cbn [session initialValue]. fold failure.
      rewrite Hdata. fold data cleared.
      by destruct (String.eqb_spec cleared (serializeCookie sessionStorage data)).
  - eexists. rewrite getUser_run. fold data.
    rewrite Htruthy, Hlookup.
    split; [reflexivity|]. split; [reflexivity|].
    unfold Remix.get, gets.
    change (Remix.dataOf ?i (with_console ?l ?w')) with (Remix.dataOf i w').
    change (Remix.dataOf ?i (with_storeCall ?c ?w')) with (Remix.dataOf i w').
    rewrite dataOf_opened. fold data. by rewrite Hkey.
Qed.

(** When the store answers, a live record of a known user is found. *)
Lemma getUserFromSessionId_found token w r owner :
  storeAnswers w ->
  sessionRecords w !! token = Some r ->
  (clock w <= record_expirationDate r)%Z ->
  Prisma.findUserById (record_userId r) w = Some owner ->
  Prisma.getUserFromSessionId token w
  = (Resolved owner, with_storeCall (FindUserBySessionId token) w).
Proof.
  intros Hanswers Hrecord Hlive Howner.
  unfold Prisma.getUserFromSessionId, Prisma.storeCall.
  unfold mbind, Async_bind, andThen, gets, reject, resolve.
  unfold storeAnswers in Hanswers. unfold Prisma.findUserById in *.
  destruct (faults w) as [|[] rest]; [|by destruct Hanswers|];
    cbn; rewrite Hrecord; cbn;
    (destruct (Z.ltb_spec (record_expirationDate r) (clock w)); [lia|]);
    cbn; by rewrite Howner.
Qed.

(** What a completed [singIn] did: one call to the store, one
    identifier drawn, one record added under it, and that identifier
    set as the session id of the handle's session. *)
Lemma singIn_resolved h user w w1 :
  Handle.singIn h user w = (Resolved tt, w1) ->
  let newId := entropy w (drawn w) in
  let created :=
    mkSessionRecord newId (user_id user) (clock w + sessionExpirationTime) in
  storeAnswers w /\
  sessionRecords w !! newId = None /\
  w1 = with_heap (alter (insert sessionIdKey newId) (session h))
         (with_sessionRecords (insert newId created)
            (with_drawn (S (drawn w))
               (with_storeCall (CreateSessionRecord (user_id user)) w))).
Proof.
  unfold Handle.singIn, Prisma.createSession, Prisma.storeCall, storeAnswers.
  unfold mbind, Async_bind, andThen, draw, gets, modify, reject, resolve,
    Remix.set.
  intros Hsign.
  destruct (faults w) as [|[] rest]; cbn in Hsign; [|done|];
    (destruct (sessionRecords w !! entropy w (drawn w)); [done|]);
    injection Hsign as <-; cbn; by repeat split.
Qed.

(** C7.  On a handle whose session object is live, once [singIn] has
    completed (the store created the record, under a non-empty id), the
    handle's session id is the id of the new record, which belongs to
    the user signed in; and if the store answers the next call, knows
    that user and gives records a non-negative lifetime, the handle's
    [getUser] resolves to that user. *)
Theorem signIn_then_getUser (h : SessionHandle) (user owner : User) (w w1 : World) :
  is_Some (heap w !! session h) ->
  Handle.singIn h user w = (Resolved tt, w1) ->
  entropy w (drawn w) ≠ "" ->
  storeAnswers w1 ->
  Prisma.findUserById (user_id user) w1 = Some owner ->
  (0 <= sessionExpirationTime)%Z ->
  exists newId created,
    sessionRecords w !! newId = None /\
    sessionRecords w1 !! newId = Some created /\
    record_id created = newId /\
    record_userId created = user_id user /\
    Handle.getSessionId h w1 = (Resolved (Some newId), w1) /\
    Handle.getUser h w1
    = (Resolved (Some owner), with_storeCall (FindUserBySessionId newId) w1).
Proof.
  intros Hlive Hsign Hid Hanswers Howner Hlifetime.
  apply singIn_resolved in Hsign as (_ & Hfresh & Hw1).
  set (newId := entropy w (drawn w)) in *.
  set (created := mkSessionRecord newId _ _) in Hw1.
  assert (sessionRecords w1 !! newId = Some created) as Hcreated.
  { subst w1. cbn. apply lookup_insert_eq. }
  assert (Remix.dataOf (session h) w1 !! sessionIdKey = Some newId) as Hset.
  { subst w1. rewrite dataOf_alter by (cbn; exact Hlive). apply lookup_insert_eq. }
  exists newId, created. repeat split; try done.
  - unfold Handle.getSessionId, Remix.get, gets. by rewrite Hset.
  - rewrite handle_getUser_run, Hset, (truthy_intro _ Hid).
    rewrite (getUserFromSessionId_found newId w1 created owner); try done.
    subst w1. cbn. lia.
Qed.

End SessionProperties.

Section ClientProperties.
Context `{Env}.
Import ClientServer.

(** Opening a client session never fails; it draws an identifier only
    when the cookie brought none. *)
Lemma getClientSession_run request w :
  let data := parseCookie clientStorage (cookieHeader request) in
  let h := mkHandle (length (heap w)) (serializeCookie clientStorage data) in
  getClientSession request w
  = match data !! "clientId" with
    | Some _ => (Resolved h, opened clientStorage request w)
    | None =>
        (Resolved h,
         with_heap (alter (insert "clientId" (entropy w (drawn w))) (length (heap w)))
           (with_drawn (S (drawn w)) (opened clientStorage request w)))
    end.
Proof.
  intros data h.
  unfold getClientSession, Handle.getClientId, uuid_v4, draw.
  unfold Remix.getSession, Remix.commitSession, Remix.get, Remix.set.
  unfold mbind, Async_bind, andThen, gets, modify, resolve.
  fold (opened clientStorage request w). cbn [session].
  rewrite !dataOf_opened. fold data h.
  by destruct (data !! "clientId").
Qed.

Lemma clientDataAfterOpen_eq request w :
  let data := parseCookie clientStorage (cookieHeader request) in
  clientDataAfterOpen request w
  = match data !! "clientId" with
    | Some _ => data
    | None => <["clientId" := entropy w (drawn w)]> data
    end.
Proof.
  intros data. unfold clientDataAfterOpen. rewrite getClientSession_run.
  fold data. destruct (data !! "clientId"); cbn [snd].
  - apply dataOf_opened.
  - rewrite dataOf_alter by apply (opened_live clientStorage request w).
    change (Remix.dataOf ?i (with_drawn ?n ?w')) with (Remix.dataOf i w').
    by rewrite dataOf_opened.
Qed.

(** On a session that holds a client id, [getClientId] returns it and
    changes nothing. *)
Lemma getClientId_present h w clientId :
  Remix.dataOf (session h) w !! "clientId" = Some clientId ->
  Handle.getClientId h w = (Resolved clientId, w).
Proof.
  intros Hid. unfold Handle.getClientId, Remix.get, gets.
  unfold mbind, Async_bind, andThen. by rewrite Hid.
Qed.

Lemma client_commit_run h w :
  Handle.commit h w
  = (Resolved (if String.eqb (serializeCookie clientStorage (Remix.dataOf (session h) w))
                             (initialValue h)
               then None
               else Some (serializeCookie clientStorage (Remix.dataOf (session h) w))),
     w).
Proof. reflexivity. Qed.

(** After [getClientSession], the session it opened holds a client id. *)
Lemma getClientSession_sets_id request w :
  exists h w1 clientId,
    getClientSession request w = (Resolved h, w1) /\
    session h = length (heap w) /\
    initialValue h
    = serializeCookie clientStorage (parseCookie clientStorage (cookieHeader request)) /\
    Remix.dataOf (session h) w1 = clientDataAfterOpen request w /\
    clientDataAfterOpen request w !! "clientId" = Some clientId.
Proof.
  pose proof (clientDataAfterOpen_eq request w) as Hdata. cbn zeta in Hdata.
  unfold clientDataAfterOpen in *.
  rewrite getClientSession_run in *. cbn zeta in *.
  destruct (parseCookie clientStorage (cookieHeader request) !! "clientId")
    as [clientId|] eqn:Hid; eexists _, _, _;
    (split; [reflexivity|]); cbn [session initialValue snd] in *;
    repeat split; rewrite Hdata; [done|apply lookup_insert_eq].
Qed.

(** C10.  For a request whose cookie brings no client id, and a storage
    that serializes the session with the new id differently from the
    session without it, [getClientSession] succeeds, the session holds
    the identifier just drawn, and [commit] right after returns the
    serialized session, not [null]; when that value is not the empty
    string, [getHeaders] produces the [Set-Cookie] header for it. *)
Theorem first_visit_commit_not_null (request : Request) (w : World) :
  let data := parseCookie clientStorage (cookieHeader request) in
  let clientId := entropy w (drawn w) in
  let value := serializeCookie clientStorage (<["clientId" := clientId]> data) in
  data !! "clientId" = None ->
  value ≠ serializeCookie clientStorage data ->
  exists h w1,
    getClientSession request w = (Resolved h, w1) /\
    drawn w1 = S (drawn w) /\
    Handle.getClientId h w1 = (Resolved clientId, w1) /\
    Handle.commit h w1 = (Resolved (Some value), w1) /\
    (value ≠ "" ->
     Handle.getHeaders h None w1
     = (Resolved (Remix.HeadersObject [("Set-Cookie", value)]), w1)).
Proof.
  intros data clientId value Hnone Hcodec.
  pose proof (getClientSession_run request w) as Hopen. cbn zeta in Hopen.
  fold data in Hopen. rewrite Hnone in Hopen. fold clientId in Hopen.
  set (h := mkHandle _ _) in Hopen. set (w1 := with_heap _ _) in Hopen.
  assert (Remix.dataOf (session h) w1 = <["clientId" := clientId]> data) as Hdata.
  { pose proof (clientDataAfterOpen_eq request w) as Hafter. cbn zeta in Hafter.
    fold data in Hafter. rewrite Hnone in Hafter.
    unfold clientDataAfterOpen in Hafter. by rewrite Hopen in Hafter. }
  assert (Handle.commit h w1 = (Resolved (Some value), w1)) as Hcommit.
  { rewrite client_commit_run, Hdata. fold value.
    change (initialValue h) with (serializeCookie clientStorage data).
    by destruct (String.eqb_spec value (serializeCookie clientStorage data)). }
  exists h, w1. split; [exact Hopen|]. split; [reflexivity|].
  split; [|split; [exact Hcommit|]].
  - apply getClientId_present. rewrite Hdata. apply lookup_insert_eq.
  - intros Hvalue. unfold Handle.getHeaders.
    unfold mbind, Async_bind, andThen. rewrite Hcommit.
    by rewrite (truthy_intro _ Hvalue).
Qed.

(** C6.  Open a client session for [request], commit it, and let the
    next request carry what was committed (through whatever the browser
    does to a [Set-Cookie] value) or, when nothing was committed, the
    cookie the first request had.  If the storage reads the committed
    value back as the session it was made from, and told that session
    apart from the one it had decoded, then opening the next request's
    session, in any world, gives the same client id. *)
Theorem client_id_round_trip (request next : Request) (w w' : World)
    (browser : string -> string) :
  let data := parseCookie clientStorage (cookieHeader request) in
  let after := clientDataAfterOpen request w in
  (serializeCookie clientStorage after = serializeCookie clientStorage data ->
   after = data) ->
  parseCookie clientStorage (Some (browser (serializeCookie clientStorage after)))
  = after ->
  cookieHeader next
  = match firstCommit request w with
    | Some value => Some (browser value)
    | None => cookieHeader request
    end ->
  exists h1 w1 clientId,
    getClientSession request w = (Resolved h1, w1) /\
    Handle.getClientId h1 w1 = (Resolved clientId, w1) /\
    Handle.commit h1 w1 = (Resolved (firstCommit request w), w1) /\
    exists h2 w2,
      getClientSession next w' = (Resolved h2, w2) /\
      Handle.getClientId h2 w2 = (Resolved clientId, w2).
Proof.
  intros data after Hdistinct Hback Hnext.
  destruct (getClientSession_sets_id request w)
    as (h1 & w1 & clientId & Hopen & Hsession & Hinitial & Hdata & Hid).
  fold after in Hdata, Hid.
  assert (Handle.commit h1 w1 = (Resolved (firstCommit request w), w1)) as Hcommit.
  { unfold firstCommit. rewrite Hopen. by rewrite client_commit_run. }
  assert (parseCookie clientStorage (cookieHeader next) = after) as Hsame.
  { rewrite Hnext. unfold firstCommit. rewrite Hopen, client_commit_run.
    rewrite Hdata, Hinitial. fold data.
    destruct (String.eqb_spec (serializeCookie clientStorage after)
                (serializeCookie clientStorage data)) as [Heq|Hne].
    - fold data. symmetry. by apply Hdistinct.
    - exact Hback. }
  exists h1, w1, clientId. split; [exact Hopen|].
  split; [apply getClientId_present; by rewrite Hdata|].
  split; [exact Hcommit|].
  destruct (getClientSession_sets_id next w')
    as (h2 & w2 & clientId' & Hopen' & _ & _ & Hdata' & Hid').
  exists h2, w2. split; [exact Hopen'|].
  apply getClientId_present. rewrite Hdata'.
  rewrite clientDataAfterOpen_eq in Hid' |- *. cbn zeta in *.
  rewrite Hsame in *. by rewrite Hid in *.
Qed.

End ClientProperties.

(** * The properties on the concrete instance *)

Section Instances.
Import SessionServer Demo.

(** A signed-in user gets the page. *)
Example signed_in_user_reaches_page :
  fst (requireUser signedIn page world)
  = Resolved (Remix.mkResponse 200 [] "kody@example.com").
Proof. vm_compute. reflexivity. Qed.

(** During an outage the same request is sent to the login page and
    signed out; once the detached deletion has run, the record is gone. *)
Example outage_signs_out :
  let w2 := snd (requireUser signedIn page outage) in
  fst (requireUser signedIn page outage)
  = Resolved (Remix.mkResponse 302 [("Set-Cookie", cleared); ("Location", "/login")] "") /\
  detached w2 = ["s1"] /\
  sessionRecords w2 !! "s1" = Some (mkSessionRecord "s1" "u1" 5000) /\
  sessionRecords (snd (settleDetached w2)) !! "s1" = None /\
  detached (snd (settleDetached w2)) = [].
Proof. vm_compute. done. Qed.

(** C1 as stated fails: for a request without any cookie (with any
    storage, by [requireUser_absent_user]; here with the one of [Demo])
    no user is resolved and the redirect to ['/login'] carries no
    [Set-Cookie] header. *)
Lemma requireUser_anonymous_no_set_cookie :
  fst (getUser anonymous world) = Resolved None /\
  fst (requireUser anonymous page world)
  = Resolved (Remix.mkResponse 302 [("Location", "/login")] "") /\
  Remix.Headers_has "Set-Cookie" [("Location", "/login")] = false.
Proof. vm_compute. done. Qed.

Lemma requireUser_absent_user_witness :
  getUser stale world = (Resolved None, snd (getUser stale world)) /\
  exists response w2,
    requireUser stale page world = (Resolved response, w2) /\
    Remix.Headers_getAll "Location" (Remix.headers response) = ["/login"] /\
    Remix.Headers_getAll "Set-Cookie" (Remix.headers response) = [cleared] /\
    detached w2 = ["gone"].
Proof.
  assert (getUser stale world = (Resolved None, snd (getUser stale world)))
    as Habsent by (vm_compute; reflexivity).
  split; [exact Habsent|].
  destruct (requireUser_absent_user stale page world _ Habsent)
    as (response & w2 & Hrun & _ & Hlocation & Hcase).
  exists response, w2. split; [exact Hrun|]. split; [exact Hlocation|].
  change (truthy _) with (Some "gone") in Hcase.
  destruct Hcase as (_ & Hdetached & Hcookie).
  split; [|exact Hdetached].
  apply Hcookie; vm_compute; discriminate.
Defined.

Lemma commit_unchanged_session_is_null_witness :
  exists h w1,
    getSession signedIn world = (Resolved h, w1) /\
    Handle.commit h w1 = (Resolved None, w1).
Proof.
  destruct (commit_unchanged_session_is_null signedIn world)
    as (h & w1 & Hopen & Hcommit).
  exists h, w1. split; [exact Hopen|]. apply Hcommit. reflexivity.
Defined.

Lemma getUser_without_cookie_witness :
  cookieHeader anonymous = None /\
  parseCookie sessionStorage None !! sessionIdKey = None /\
  getUser anonymous world = (Resolved None, opened sessionStorage anonymous world) /\
  storeLog (opened sessionStorage anonymous world) = storeLog world.
Proof.
  assert (parseCookie sessionStorage None !! sessionIdKey = None) as Hempty
    by (vm_compute; reflexivity).
  split; [reflexivity|]. split; [exact Hempty|].
  destruct (getUser_without_cookie anonymous world eq_refl Hempty)
    as (Hrun & Hlog & _).
  split; [exact Hrun|exact Hlog].
Defined.

Lemma magic_link_unknown_email_witness :
  validateMagicLinkAt (url (magic "nobody@example.com")) (clock world)
  = Resolved "nobody@example.com" /\
  Prisma.getUserByEmail "nobody@example.com" world
  = (Resolved None, with_storeCall (FindUserByEmail "nobody@example.com") world) /\
  getUserSessionFromMagicLink (magic "nobody@example.com") world
  = (Resolved None, with_storeCall (FindUserByEmail "nobody@example.com") world).
Proof.
  split; [reflexivity|]. split; [reflexivity|].
  apply (magic_link_unknown_email (magic "nobody@example.com") world _
           "nobody@example.com"); reflexivity.
Defined.

Lemma magic_link_failure_propagates_witness :
  validateMagicLinkAt (url (magic "")) (clock world) = Rejected "Invalid magic link" /\
  getUserSessionFromMagicLink (magic "") world = (Rejected "Invalid magic link", world).
Proof.
  split; [reflexivity|].
  apply (magic_link_failure_propagates (magic "") world); reflexivity.
Defined.

Lemma requireAdminUser_non_admin_witness :
  getUser signedIn world = (Resolved (Some kody), snd (getUser signedIn world)) /\
  user_role kody ≠ "ADMIN" /\
  requireAdminUser signedIn page world
  = (Resolved (Remix.mkResponse 302 [("Location", "/")] ""),
     snd (getUser signedIn world)).
Proof.
  assert (getUser signedIn world = (Resolved (Some kody), snd (getUser signedIn world)))
    as Huser by (vm_compute; reflexivity).
  assert (user_role kody ≠ "ADMIN") as Hrole by (vm_compute; discriminate).
  split; [exact Huser|]. split; [exact Hrole|].
  apply (requireAdminUser_non_admin signedIn page world _ kody Huser Hrole).
Defined.

Lemma getUser_lookup_failure_witness :
  parseCookie sessionStorage (cookieHeader stale) !! sessionIdKey = Some "gone" /\
  fst (Prisma.getUserFromSessionId "gone" (opened sessionStorage stale world))
  = Rejected "No user found" /\
  exists h w1 w2,
    getSession stale world = (Resolved h, w1) /\
    Handle.getUser h w1 = (Resolved None, w2) /\
    Handle.commit h w2 = (Resolved (Some cleared), w2).
Proof.
  assert (parseCookie sessionStorage (cookieHeader stale) !! sessionIdKey = Some "gone")
    as Hkey by (vm_compute; reflexivity).
  assert (fst (Prisma.getUserFromSessionId "gone" (opened sessionStorage stale world))
          = Rejected "No user found") as Hfail by (vm_compute; reflexivity).
  split; [exact Hkey|]. split; [exact Hfail|].
  destruct (getUser_lookup_failure stale world "gone" "No user found" Hkey)
    as ((h & w1 & w2 & Hopen & Hrun & _ & _ & Hcommit) & _);
    [vm_compute; discriminate|exact Hfail|vm_compute; discriminate|].
  exists h, w1, w2. split; [exact Hopen|]. split; [exact Hrun|exact Hcommit].
Defined.

Lemma signIn_then_getUser_witness :
  let h := mkHandle 0 cleared in
  let w := opened sessionStorage anonymous world in
  Handle.singIn h kody w = (Resolved tt, snd (Handle.singIn h kody w)) /\
  exists w2,
    Handle.getUser h (snd (Handle.singIn h kody w)) = (Resolved (Some kody), w2).
Proof.
  intros h w.
  assert (Handle.singIn h kody w = (Resolved tt, snd (Handle.singIn h kody w)))
    as Hsign by (vm_compute; reflexivity).
  split; [exact Hsign|].
  assert (is_Some (heap w !! session h)) as Hlive by (eexists; reflexivity).
  assert (entropy w (drawn w) ≠ "") as Hid by (vm_compute; discriminate).
  assert (storeAnswers (snd (Handle.singIn h kody w))) as Hanswers
    by (vm_compute; discriminate).
  assert (Prisma.findUserById (user_id kody) (snd (Handle.singIn h kody w)) = Some kody)
    as Hknown by (vm_compute; reflexivity).
  assert (0 <= sessionExpirationTime)%Z as Hlifetime by (vm_compute; discriminate).
  destruct (signIn_then_getUser h kody kody w _ Hlive Hsign Hid Hanswers Hknown Hlifetime)
    as (newId & created & _ & _ & _ & _ & _ & Hrun).
  eexists. exact Hrun.
Defined.

End Instances.

Section ClientInstances.
Import ClientServer Demo.

Lemma first_visit_commit_not_null_witness :
  parseCookie clientStorage (cookieHeader anonymous) !! "clientId" = None /\
  exists h w1,
    getClientSession anonymous world = (Resolved h, w1) /\
    Handle.getClientId h w1 = (Resolved "uuid-0", w1) /\
    Handle.commit h w1 = (Resolved (Some issued), w1).
Proof.
  split; [reflexivity|].
  destruct (first_visit_commit_not_null anonymous world)
    as (h & w1 & Hopen & _ & Hid & Hcommit & _);
    [reflexivity|vm_compute; discriminate|].
  exists h, w1. split; [exact Hopen|]. split; [exact Hid|exact Hcommit].
Defined.

Lemma client_id_round_trip_witness :
  let next := mkRequest "https://example.com/blog" (Some issued) in
  firstCommit anonymous world = Some issued /\
  exists h1 w1 h2 w2,
    getClientSession anonymous world = (Resolved h1, w1) /\
    Handle.getClientId h1 w1 = (Resolved "uuid-0", w1) /\
    getClientSession next outage = (Resolved h2, w2) /\
    Handle.getClientId h2 w2 = (Resolved "uuid-0", w2).
Proof.
  intros next.
  assert (firstCommit anonymous world = Some issued) as Hcommitted
    by (vm_compute; reflexivity).
  split; [exact Hcommitted|].
  destruct (client_id_round_trip anonymous next world outage (fun value => value))
    as (h1 & w1 & clientId & Hopen & Hid & _ & h2 & w2 & Hopen' & Hid').
  - intros Hsame. vm_compute in Hsame. discriminate.
  - vm_compute. reflexivity.
  - rewrite Hcommitted. reflexivity.
  - assert (clientId = "uuid-0") as ->.
    { rewrite getClientSession_run in Hopen. vm_compute in Hopen.
      injection Hopen as <- <-. vm_compute in Hid. by injection Hid. }
    by exists h1, w1, h2, w2.
Defined.

End ClientInstances.

(** * Further properties of [session.server.ts] *)

Section MoreSessionProperties.
Context `{Env}.
Import SessionServer.

(** Writes to one session object leave every other object as it is. *)
Lemma dataOf_alter_ne (f : SessionData -> SessionData) i j w :
  i ≠ j -> Remix.dataOf j (with_heap (alter f i) w) = Remix.dataOf j w.
Proof.
  intros Hne. unfold Remix.dataOf. cbn. by rewrite list_lookup_alter_ne.
Qed.

Lemma getHeaders_any h headers w :
  Handle.getHeaders h headers w
  = (Resolved
       match truthy (if String.eqb (serializeCookie sessionStorage (Remix.dataOf (session h) w))
                                   (initialValue h)
                     then None
                     else Some (serializeCookie sessionStorage (Remix.dataOf (session h) w))) with
       | None => default (Remix.HeadersObject []) headers
       | Some value =>
           match default (Remix.HeadersObject []) headers with
           | Remix.HeadersObject entries =>
               Remix.HeadersObject (Remix.Headers_append "Set-Cookie" value entries)
           | Remix.HeadersArray pairs =>
               Remix.HeadersArray (pairs ++ [("Set-Cookie", value)])
           | Remix.HeadersRecord fields =>
               Remix.HeadersRecord (<["Set-Cookie" := value]> fields)
           end
       end, w).
Proof.
  unfold Handle.getHeaders. unfold mbind at 1, Async_bind, andThen.
  rewrite commit_run. cbn [fst].
  by destruct (truthy _).
Qed.

(** X1.  A request whose user is resolved through the handle costs no
    cookie: when the handle's [getUser] resolves to a user, the session
    is as it was opened, so [commit] returns [null] and [getHeaders]
    hands back the headers it was given, whatever their shape. *)
Theorem resolved_user_sets_no_cookie (request : Request) (w w1 w2 : World)
    (h : SessionHandle) (user : User) (headers : option Remix.HeadersInit) :
  getSession request w = (Resolved h, w1) ->
  Handle.getUser h w1 = (Resolved (Some user), w2) ->
  Handle.commit h w2 = (Resolved None, w2) /\
  Handle.getHeaders h headers w2
  = (Resolved (default (Remix.HeadersObject []) headers), w2).
Proof.
  intros Hopen Huser. rewrite getSession_run in Hopen.
  injection Hopen as <- <-.
  rewrite handle_getUser_run in Huser. cbn [session] in Huser.
  destruct (truthy _) as [token|]; [|done].
  pose proof (getUserFromSessionId_world token (opened sessionStorage request w)) as Hw.
  destruct (Prisma.getUserFromSessionId token _) as [[u|e] w']; [|done].
  injection Huser as _ <-. cbn [snd] in Hw. subst w'.
  assert (Remix.dataOf (length (heap w))
            (with_storeCall (FindUserBySessionId token) (opened sessionStorage request w))
          = parseCookie sessionStorage (cookieHeader request)) as Hdata
    by apply dataOf_opened.
  rewrite getHeaders_any, commit_run. cbn [session initialValue].
  by rewrite Hdata, String.eqb_refl.
Qed.

(** X2.  Signing out twice is signing out once: the second call finds
    no session id, unsets nothing and requests no deletion. *)
Theorem signOut_twice (h : SessionHandle) (w : World) :
  is_Some (heap w !! session h) ->
  (Handle.signOut h;; Handle.signOut h) w = Handle.signOut h w.
Proof.
  intros Hlive. unfold mbind, Async_bind, andThen.
  rewrite signOut_run.
  destruct (truthy (Remix.dataOf (session h) w !! sessionIdKey)) as [sid|] eqn:Hid.
  - rewrite signOut_run.
    change (Remix.dataOf ?i (with_detached ?f ?w')) with (Remix.dataOf i w').
    rewrite dataOf_alter by done. by rewrite lookup_delete_eq.
  - rewrite signOut_run. by rewrite Hid.
Qed.

(** X3.  After [signOut] the handle knows no user: the session id it
    reads is falsy (undefined, or the empty string it had), and
    [getUser] resolves to [null] without calling the store or touching
    the world. *)
Theorem signOut_then_getUser (h : SessionHandle) (w : World) :
  is_Some (heap w !! session h) ->
  exists w1 sessionId,
    Handle.signOut h w = (Resolved tt, w1) /\
    storeLog w1 = storeLog w /\
    Handle.getSessionId h w1 = (Resolved sessionId, w1) /\
    truthy sessionId = None /\
    Handle.getUser h w1 = (Resolved None, w1).
Proof.
  intros Hlive. rewrite signOut_run.
  destruct (truthy (Remix.dataOf (session h) w !! sessionIdKey)) as [sid|] eqn:Hid.
  - assert (Remix.dataOf (session h)
              (with_detached (fun pending => pending ++ [sid])
                 (with_heap (alter (delete sessionIdKey) (session h)) w))
              !! sessionIdKey = None) as Hgone.
    { change (Remix.dataOf ?i (with_detached ?f ?w')) with (Remix.dataOf i w').
      rewrite dataOf_alter by done. apply lookup_delete_eq. }
    eexists _, None. split; [reflexivity|]. split; [reflexivity|].
    split; [|split; [reflexivity|]].
    + unfold Handle.getSessionId, Remix.get, gets. by rewrite Hgone.
    + rewrite handle_getUser_run. by rewrite Hgone.
  - exists w, (Remix.dataOf (session h) w !! sessionIdKey).
    split; [reflexivity|]. split; [reflexivity|].
    split; [reflexivity|]. split; [exact Hid|].
    rewrite handle_getUser_run. by rewrite Hid.
Qed.

(** X4.  Signing in and then out on the same handle leaves the session
    without a session id (so a session opened without one has nothing
    to commit), while the record just created stays in the store with
    its deletion requested. *)
Theorem singIn_then_signOut (h : SessionHandle) (user : User) (w w1 : World) :
  is_Some (heap w !! session h) ->
  Handle.singIn h user w = (Resolved tt, w1) ->
  entropy w (drawn w) ≠ "" ->
  exists w2,
    Handle.signOut h w1 = (Resolved tt, w2) /\
    Remix.dataOf (session h) w2 = delete sessionIdKey (Remix.dataOf (session h) w) /\
    detached w2 = detached w ++ [entropy w (drawn w)] /\
    is_Some (sessionRecords w2 !! entropy w (drawn w)).
Proof.
  intros Hlive Hsign Hid.
  apply singIn_resolved in Hsign as (_ & _ & Hw1).
  set (newId := entropy w (drawn w)) in *.
  assert (Remix.dataOf (session h) w1
          = <[sessionIdKey := newId]> (Remix.dataOf (session h) w)) as Hset.
  { subst w1. by rewrite dataOf_alter by (cbn; exact Hlive). }
  assert (is_Some (heap w1 !! session h)) as Hlive1.
  { subst w1. cbn. rewrite list_lookup_alter_eq.
    destruct Hlive as [data ->]. by eexists. }
  rewrite signOut_run, Hset, lookup_insert_eq, (truthy_intro _ Hid).
  eexists. split; [reflexivity|].
  change (Remix.dataOf ?i (with_detached ?f ?w')) with (Remix.dataOf i w').
  rewrite dataOf_alter by done. rewrite Hset, delete_insert_eq.
  split; [reflexivity|].
  subst w1. cbn. split; [reflexivity|].
  rewrite lookup_insert_eq. by eexists.
Qed.

(** X5.  The module's [getUser] and the handle's [getUser] on a session
    just opened for the same request answer alike: same user or
    [null], same calls to the store, same lines printed.  (They differ
    only in what is left in the session after a failed lookup.) *)
Theorem getUser_agrees_with_handle (request : Request) (w : World) :
  let viaHandle := (h ← getSession request; Handle.getUser h) w in
  fst (getUser request w) = fst viaHandle /\
  storeLog (snd (getUser request w)) = storeLog (snd viaHandle) /\
  console (snd (getUser request w)) = console (snd viaHandle) /\
  sessionRecords (snd (getUser request w)) = sessionRecords (snd viaHandle).
Proof.
  cbn zeta. unfold mbind, Async_bind, andThen.
  rewrite getSession_run, getUser_run, handle_getUser_run.
  cbn [session]. rewrite dataOf_opened.
  destruct (truthy _) as [token|]; [|done].
  by destruct (Prisma.getUserFromSessionId token _) as [[u|e] w'].
Qed.

(** X6.  The two guards differ only for a user who is not an
    administrator: on a request whose resolved user, if any, has the
    role ['ADMIN'], [requireAdminUser] is [requireUser]. *)
Theorem requireAdminUser_is_requireUser (request : Request)
    (callback : User -> Async Remix.Response) (w : World) :
  (forall user w1,
      getUser request w = (Resolved (Some user), w1) -> user_role user = "ADMIN") ->
  requireAdminUser request callback w = requireUser request callback w.
Proof.
  intros Hadmin. unfold requireAdminUser, requireUser.
  unfold mbind at 1 5, Async_bind, andThen.
  destruct (getUser request w) as [[[user|]|e] w1] eqn:Huser; try done.
  by rewrite (Hadmin user w1 eq_refl).
Qed.

(** X7.  Two sessions opened one after the other, even for the same
    request, are two objects: signing out through the first leaves the
    second as it was opened (its session id still there, nothing to
    commit), and the other way round. *)
Theorem sessions_do_not_share_state (first second : Request)
    (w w1 w2 : World) (h1 h2 : SessionHandle) :
  getSession first w = (Resolved h1, w1) ->
  getSession second w1 = (Resolved h2, w2) ->
  (exists w3,
      Handle.signOut h1 w2 = (Resolved tt, w3) /\
      Remix.dataOf (session h2) w3 = parseCookie sessionStorage (cookieHeader second) /\
      Handle.commit h2 w3 = (Resolved None, w3)) /\
  (exists w3,
      Handle.signOut h2 w2 = (Resolved tt, w3) /\
      Remix.dataOf (session h1) w3 = parseCookie sessionStorage (cookieHeader first) /\
      Handle.commit h1 w3 = (Resolved None, w3)).
Proof.
  intros Hfirst Hsecond.
  assert (h1 = mkHandle (length (heap w))
                 (serializeCookie sessionStorage
                    (parseCookie sessionStorage (cookieHeader first)))
          /\ w1 = opened sessionStorage first w) as [-> ->]
    by (rewrite getSession_run in Hfirst; split; congruence).
  assert (h2 = mkHandle (length (heap (opened sessionStorage first w)))
                 (serializeCookie sessionStorage
                    (parseCookie sessionStorage (cookieHeader second)))
          /\ w2 = opened sessionStorage second (opened sessionStorage first w))
    as [-> ->]
    by (rewrite getSession_run in Hsecond; split; congruence).
  clear Hfirst Hsecond.
  assert (length (heap (opened sessionStorage first w)) = S (length (heap w))) as Hlen.
  { unfold opened. cbn. rewrite length_app. cbn. lia. }
  assert (Remix.dataOf (length (heap w))
            (opened sessionStorage second (opened sessionStorage first w))
          = parseCookie sessionStorage (cookieHeader first)) as Hold.
  { unfold Remix.dataOf, opened. cbn.
    rewrite lookup_app_l; [by rewrite lookup_allocated|].
    rewrite length_app. cbn [length]. lia. }
  split.
  - rewrite signOut_run. cbn [session].
    destruct (truthy _) as [sid|]; eexists; (split; [reflexivity|]).
    + change (Remix.dataOf ?i (with_detached ?f ?w')) with (Remix.dataOf i w').
      rewrite commit_run. cbn [session initialValue].
      change (Remix.dataOf ?i (with_detached ?f ?w')) with (Remix.dataOf i w').
      rewrite dataOf_alter_ne by (rewrite Hlen; lia). rewrite dataOf_opened.
      by rewrite String.eqb_refl.
    + rewrite commit_run. cbn [session initialValue]. rewrite dataOf_opened.
      by rewrite String.eqb_refl.
  - rewrite signOut_run. cbn [session].
    destruct (truthy _) as [sid|]; eexists; (split; [reflexivity|]).
    + change (Remix.dataOf ?i (with_detached ?f ?w')) with (Remix.dataOf i w').
      rewrite commit_run. cbn [session initialValue].
      change (Remix.dataOf ?i (with_detached ?f ?w')) with (Remix.dataOf i w').
      rewrite dataOf_alter_ne by (rewrite Hlen; lia). rewrite Hold.
      by rewrite String.eqb_refl.
    + rewrite commit_run. cbn [session initialValue]. rewrite Hold.
      by rewrite String.eqb_refl.
Qed.

(** One detached deletion: the call is logged; a failure is printed,
    a success removes the record. *)
Lemma settle_step sessionId w :
  catch (Prisma.deleteSession sessionId)
        (fun error => console_error "Failure deleting user session: " error) w
  = match faults w with
    | true :: _ =>
        (Resolved tt,
         with_console ("Failure deleting user session: ", "store unavailable")
           (with_storeCall (DeleteSessionRecord sessionId) w))
    | _ =>
        (Resolved tt,
         with_sessionRecords (delete sessionId)
           (with_storeCall (DeleteSessionRecord sessionId) w))
    end.
Proof.
  unfold catch, Prisma.deleteSession, Prisma.storeCall, console_error, modify.
  unfold mbind, Async_bind, andThen.
  by destruct (faults w) as [|[] rest].
Qed.

Lemma settle_run pending :
  forall w, exists w',
    settle pending w = (Resolved tt, w') /\
    users w' = users w /\
    heap w' = heap w /\
    detached w' = detached w /\
    storeLog w' = storeLog w ++ List.map DeleteSessionRecord pending /\
    (forall sessionId,
        sessionId ∉ pending ->
        sessionRecords w' !! sessionId = sessionRecords w !! sessionId) /\
    (faults w = [] ->
     console w' = console w /\
     forall sessionId, sessionId ∈ pending -> sessionRecords w' !! sessionId = None).
Proof.
  induction pending as [|sid rest IH]; intros w.
  - exists w. cbn. rewrite app_nil_r. repeat split; try done.
    intros sessionId Hin. by apply elem_of_nil in Hin.
  - cbn [settle]. unfold mbind, Async_bind, andThen. rewrite settle_step.
    destruct (faults w) as [|[] more] eqn:Hfaults.
    + destruct (IH (with_sessionRecords (delete sid)
                      (with_storeCall (DeleteSessionRecord sid) w)))
        as (w' & Hrun & Husers & Hheap & Hdetached & Hlog & Hframe & Hclean).
      exists w'. split; [exact Hrun|]. cbn in *.
      split; [done|]. split; [done|]. split; [done|].
      split; [by rewrite Hlog, <- app_assoc|].
      split.
      * intros sessionId Hout. apply not_elem_of_cons in Hout as [Hne Hout].
        rewrite (Hframe _ Hout). by apply lookup_delete_ne.
      * intros _. rewrite Hfaults in Hclean.
        destruct (Hclean eq_refl) as [Hconsole Hgone].
        split; [done|]. intros sessionId Hin.
        destruct (decide (sessionId ∈ rest)) as [Hrest|Hrest]; [by apply Hgone|].
        apply elem_of_cons in Hin as [->|Hin]; [|done].
        rewrite (Hframe _ Hrest). apply lookup_delete_eq.
    + destruct (IH (with_console ("Failure deleting user session: ", "store unavailable")
                      (with_storeCall (DeleteSessionRecord sid) w)))
        as (w' & Hrun & Husers & Hheap & Hdetached & Hlog & Hframe & _).
      exists w'. split; [exact Hrun|]. cbn in *.
      split; [done|]. split; [done|]. split; [done|].
      split; [by rewrite Hlog, <- app_assoc|].
      split; [|done].
      intros sessionId Hout. apply not_elem_of_cons in Hout as [Hne Hout].
      by rewrite (Hframe _ Hout).
    + destruct (IH (with_sessionRecords (delete sid)
                      (with_storeCall (DeleteSessionRecord sid) w)))
        as (w' & Hrun & Husers & Hheap & Hdetached & Hlog & Hframe & _).
      exists w'. split; [exact Hrun|]. cbn in *.
      split; [done|]. split; [done|]. split; [done|].
      split; [by rewrite Hlog, <- app_assoc|].
      split; [|done].
      intros sessionId Hout. apply not_elem_of_cons in Hout as [Hne Hout].
      rewrite (Hframe _ Hout). by apply lookup_delete_ne.
Qed.

(** X8.  The deletions requested by [signOut] never surface: run to
    completion they always resolve, whatever the store does.  One call
    to the store is made per requested deletion, in order; users and
    session objects are untouched and only the records named can go.
    When the store has no fault pending, every one of them is gone and
    nothing is printed. *)
Theorem detached_deletions_never_reject (w : World) :
  exists w',
    settleDetached w = (Resolved tt, w') /\
    detached w' = [] /\
    users w' = users w /\
    heap w' = heap w /\
    storeLog w' = storeLog w ++ List.map DeleteSessionRecord (detached w) /\
    (forall sessionId,
        sessionId ∉ detached w ->
        sessionRecords w' !! sessionId = sessionRecords w !! sessionId) /\
    (faults w = [] ->
     console w' = console w /\
     forall sessionId, sessionId ∈ detached w -> sessionRecords w' !! sessionId = None).
Proof.
  unfold settleDetached.
  destruct (settle_run (detached w) (with_detached (fun _ => []) w))
    as (w' & Hrun & Husers & Hheap & Hdetached & Hlog & Hframe & Hclean).
  exists w'. by repeat split; try done; apply Hclean.
Qed.

(** When the store answers and the drawn id is free, [singIn] creates
    the record and sets its id on the handle's session. *)
Lemma singIn_run h user w :
  storeAnswers w ->
  sessionRecords w !! entropy w (drawn w) = None ->
  Handle.singIn h user w
  = (Resolved tt,
     with_heap (alter (insert sessionIdKey (entropy w (drawn w))) (session h))
       (with_sessionRecords
          (insert (entropy w (drawn w))
             (mkSessionRecord (entropy w (drawn w)) (user_id user)
                (clock w + sessionExpirationTime)))
          (with_drawn (S (drawn w))
             (with_storeCall (CreateSessionRecord (user_id user)) w)))).
Proof.
  intros Hanswers Hfree.
  unfold Handle.singIn, Prisma.createSession, Prisma.storeCall, storeAnswers in *.
  unfold mbind, Async_bind, andThen, draw, gets, modify, reject, resolve,
    Remix.set.
  destruct (faults w) as [|[] rest]; [|by destruct Hanswers|];
    cbn; by rewrite Hfree.
Qed.

(** A rejected [createSession] has added no record. *)
Lemma createSession_rejected userId w e w' :
  Prisma.createSession userId w = (Rejected e, w') ->
  sessionRecords w' = sessionRecords w /\ heap w' = heap w /\ users w' = users w.
Proof.
  unfold Prisma.createSession, Prisma.storeCall.
  unfold mbind, Async_bind, andThen, draw, gets, modify, reject, resolve.
  destruct (faults w) as [|[] rest]; cbn;
    try (destruct (sessionRecords w !! entropy w (drawn w))); cbn;
    intros [= <- <-] || intros [=]; done.
Qed.

(** What [getUserSessionFromMagicLink] does once the link validated and
    the user was found. *)
Lemma magic_link_found request w w1 email user :
  validateMagicLinkAt (url request) (clock w) = Resolved email ->
  Prisma.getUserByEmail email w = (Resolved (Some user), w1) ->
  getUserSessionFromMagicLink request w
  = let h := mkHandle (length (heap w1))
               (serializeCookie sessionStorage
                  (parseCookie sessionStorage (cookieHeader request))) in
    match Handle.singIn h user (opened sessionStorage request w1) with
    | (Resolved _, w2) => (Resolved (Some h), w2)
    | (Rejected e, w2) => (Rejected e, w2)
    end.
Proof.
  intros Hvalid Hfound.
  unfold getUserSessionFromMagicLink, Prisma.validateMagicLink.
  unfold mbind at 1, Async_bind, andThen. rewrite Hvalid.
  unfold mbind at 1, Async_bind, andThen. rewrite Hfound.
  unfold mbind at 1, Async_bind, andThen. rewrite getSession_run.
  unfold mbind at 1, Async_bind, andThen. cbn zeta.
  by destruct (Handle.singIn _ user _) as [[[]|e] w2].
Qed.

(** The run of a successful magic-link sign-in, spelled out. *)
Lemma magic_link_resolved (request : Request) (w w1 : World)
    (email : string) (user : User) :
  let data := parseCookie sessionStorage (cookieHeader request) in
  let newId := entropy w (drawn w) in
  let created :=
    mkSessionRecord newId (user_id user) (clock w + sessionExpirationTime) in
  validateMagicLinkAt (url request) (clock w) = Resolved email ->
  Prisma.getUserByEmail email w = (Resolved (Some user), w1) ->
  storeAnswers w1 ->
  sessionRecords w !! newId = None ->
  exists h w2,
    getUserSessionFromMagicLink request w = (Resolved (Some h), w2) /\
    session h = length (heap w) /\
    Remix.dataOf (session h) w2 = <[sessionIdKey := newId]> data /\
    sessionRecords w2 = <[newId := created]> (sessionRecords w) /\
    users w2 = users w /\
    (serializeCookie sessionStorage (<[sessionIdKey := newId]> data)
     ≠ serializeCookie sessionStorage data ->
     Handle.commit h w2
     = (Resolved (Some (serializeCookie sessionStorage (<[sessionIdKey := newId]> data))),
        w2)).
Proof.
  intros data newId created Hvalid Hfound Hanswers Hfree.
  rewrite (magic_link_found request w w1 email user Hvalid Hfound). cbn zeta.
  pose proof (getUserByEmail_world email w) as Hw1. rewrite Hfound in Hw1.
  cbn [snd] in Hw1. fold data.
  set (h := mkHandle (length (heap w1)) (serializeCookie sessionStorage data)).
  set (w2 := with_heap (alter (insert sessionIdKey newId) (session h))
               (with_sessionRecords (insert newId created)
                  (with_drawn (S (drawn w))
                     (with_storeCall (CreateSessionRecord (user_id user))
                        (opened sessionStorage request w1))))).
  assert (Handle.singIn h user (opened sessionStorage request w1) = (Resolved tt, w2))
    as Hsign.
  { rewrite singIn_run; [by subst w1|exact Hanswers|by subst w1]. }
  assert (Remix.dataOf (session h) w2 = <[sessionIdKey := newId]> data) as Hdata.
  { unfold w2. rewrite dataOf_alter by apply (opened_live sessionStorage request w1).
    f_equal. apply (dataOf_opened sessionStorage request w1). }
  rewrite Hsign. exists h, w2. split; [reflexivity|].
  split; [by subst w1|]. split; [exact Hdata|].
  split; [by subst w1|]. split; [by subst w1|].
  intros Hcodec. rewrite commit_run, Hdata.
  change (initialValue h) with (serializeCookie sessionStorage data).
  by destruct (String.eqb_spec
                 (serializeCookie sessionStorage (<[sessionIdKey := newId]> data))
                 (serializeCookie sessionStorage data)).
Qed.

(** X9.  A valid link for a known user signs that user in: when the
    store answers the creation and the id it draws is free, the result
    is a handle on a new session object holding the request's session
    plus the id of the one record added, which belongs to the user and
    expires [sessionExpirationTime] from now; and [commit] on that
    handle returns the serialized session (when the storage
    serializes it differently from the session as opened). *)
Theorem magic_link_signs_in (request : Request) (w w1 : World)
    (email : string) (user : User) :
  let data := parseCookie sessionStorage (cookieHeader request) in
  let newId := entropy w (drawn w) in
  let created :=
    mkSessionRecord newId (user_id user) (clock w + sessionExpirationTime) in
  validateMagicLinkAt (url request) (clock w) = Resolved email ->
  Prisma.getUserByEmail email w = (Resolved (Some user), w1) ->
  storeAnswers w1 ->
  sessionRecords w !! newId = None ->
  exists h w2,
    getUserSessionFromMagicLink request w = (Resolved (Some h), w2) /\
    session h = length (heap w) /\
    Remix.dataOf (session h) w2 = <[sessionIdKey := newId]> data /\
    sessionRecords w2 = <[newId := created]> (sessionRecords w) /\
    users w2 = users w /\
    (serializeCookie sessionStorage (<[sessionIdKey := newId]> data)
     ≠ serializeCookie sessionStorage data ->
     Handle.commit h w2
     = (Resolved (Some (serializeCookie sessionStorage (<[sessionIdKey := newId]> data))),
        w2)).
Proof. apply magic_link_resolved. Qed.


(** X10.  A request whose cookie decodes to the id of a record that has
    not expired, owned by a user the store knows, is authenticated when
    the store answers: [getUser] resolves to the owner after one
    lookup, and [requireUser] is the callback applied to the owner. *)
Theorem live_session_is_authenticated (request : Request)
    (callback : User -> Async Remix.Response) (w : World)
    (token : string) (r : SessionRecord) (owner : User) :
  parseCookie sessionStorage (cookieHeader request) !! sessionIdKey = Some token ->
  token ≠ "" ->
  sessionRecords w !! token = Some r ->
  (clock w <= record_expirationDate r)%Z ->
  Prisma.findUserById (record_userId r) w = Some owner ->
  storeAnswers w ->
  let w1 := with_storeCall (FindUserBySessionId token) (opened sessionStorage request w) in
  getUser request w = (Resolved (Some owner), w1) /\
  requireUser request callback w = callback owner w1.
Proof.
  intros Hkey Hne Hrecord Hlive Howner Hanswers w1.
  assert (getUser request w = (Resolved (Some owner), w1)) as Huser.
  { rewrite getUser_run, Hkey, (truthy_intro _ Hne).
    by rewrite (getUserFromSessionId_found token _ r owner). }
  split; [exact Huser|].
  unfold requireUser. unfold mbind at 1, Async_bind, andThen. by rewrite Huser.
Qed.

(** X11.  Signing in through a magic link and coming back: with the
    hypotheses of X9 and a non-empty id, [commit] returns the cookie of
    the new session, and a later request that carries it (the storage
    reading it back as the session committed) is resolved by [getUser]
    to the owner of the record, in any later world that still has the
    record and the users, whose clock is within the record's lifetime
    and whose store answers. *)
Theorem magic_link_round_trip (request next : Request) (w w1 : World)
    (email : string) (user owner : User) (browser : string -> string) :
  let data := parseCookie sessionStorage (cookieHeader request) in
  let newId := entropy w (drawn w) in
  let committed := serializeCookie sessionStorage (<[sessionIdKey := newId]> data) in
  validateMagicLinkAt (url request) (clock w) = Resolved email ->
  Prisma.getUserByEmail email w = (Resolved (Some user), w1) ->
  storeAnswers w1 ->
  sessionRecords w !! newId = None ->
  newId ≠ "" ->
  committed ≠ serializeCookie sessionStorage data ->
  cookieHeader next = Some (browser committed) ->
  parseCookie sessionStorage (Some (browser committed)) = <[sessionIdKey := newId]> data ->
  Prisma.findUserById (user_id user) w = Some owner ->
  exists h w2,
    getUserSessionFromMagicLink request w = (Resolved (Some h), w2) /\
    Handle.commit h w2 = (Resolved (Some committed), w2) /\
    forall w3,
      sessionRecords w3 = sessionRecords w2 ->
      users w3 = users w2 ->
      (clock w3 <= clock w + sessionExpirationTime)%Z ->
      storeAnswers w3 ->
      getUser next w3
      = (Resolved (Some owner),
         with_storeCall (FindUserBySessionId newId) (opened sessionStorage next w3)).
Proof.
  intros data newId committed Hvalid Hfound Hanswers Hfree Hid Hcodec
    Hnext Hback Howner.
  destruct (magic_link_resolved request w w1 email user Hvalid Hfound Hanswers Hfree)
    as (h & w2 & Hrun & _ & _ & Hrecords & Husers & Hcommit).
  exists h, w2. split; [exact Hrun|]. split; [by apply Hcommit|].
  intros w3 Hrecords3 Husers3 Hclock Hanswers3.
  rewrite getUser_run, Hnext, Hback, lookup_insert_eq, (truthy_intro _ Hid).
  rewrite (getUserFromSessionId_found newId _
             (mkSessionRecord newId (user_id user) (clock w + sessionExpirationTime))
             owner); try done.
  - cbn. rewrite Hrecords3, Hrecords. apply lookup_insert_eq.
  - unfold Prisma.findUserById in *. cbn. by rewrite Husers3, Husers.
Qed.

(** X12.  A failure of the store while looking the user up is not
    swallowed either: [getUserSessionFromMagicLink] rejects with the
    store's error, having opened no session. *)
Theorem magic_link_lookup_failure_propagates (request : Request) (w w1 : World)
    (email : string) (e : Error) :
  validateMagicLinkAt (url request) (clock w) = Resolved email ->
  Prisma.getUserByEmail email w = (Rejected e, w1) ->
  getUserSessionFromMagicLink request w = (Rejected e, w1) /\
  heap w1 = heap w /\
  sessionRecords w1 = sessionRecords w.
Proof.
  intros Hvalid Hlookup.
  pose proof (getUserByEmail_world email w) as Hw. rewrite Hlookup in Hw.
  cbn in Hw. subst w1. split; [|done].
  unfold getUserSessionFromMagicLink, Prisma.validateMagicLink.
  unfold mbind at 1, Async_bind, andThen. rewrite Hvalid.
  unfold mbind at 1, Async_bind, andThen. by rewrite Hlookup.
Qed.

(** X13.  Nor is a failure to create the session record: for a known
    user, when [createSession] rejects, so does
    [getUserSessionFromMagicLink], with the same error; a session
    object was opened, it holds what the cookie decoded to and no new
    id, and the store has no new record. *)
Theorem magic_link_create_failure_propagates (request : Request) (w w1 w2 : World)
    (email : string) (user : User) (e : Error) :
  validateMagicLinkAt (url request) (clock w) = Resolved email ->
  Prisma.getUserByEmail email w = (Resolved (Some user), w1) ->
  Prisma.createSession (user_id user) (opened sessionStorage request w1)
  = (Rejected e, w2) ->
  getUserSessionFromMagicLink request w = (Rejected e, w2) /\
  heap w2 = heap w ++ [parseCookie sessionStorage (cookieHeader request)] /\
  sessionRecords w2 = sessionRecords w.
Proof.
  intros Hvalid Hfound Hcreate.
  rewrite (magic_link_found request w w1 email user Hvalid Hfound). cbn zeta.
  unfold Handle.singIn. unfold mbind at 1, Async_bind, andThen. rewrite Hcreate.
  split; [reflexivity|].
  apply createSession_rejected in Hcreate as (Hrecords & Hheap & _).
  pose proof (getUserByEmail_world email w) as Hw1. rewrite Hfound in Hw1.
  cbn [snd] in Hw1. subst w1. by rewrite Hrecords, Hheap.
Qed.

(** X14.  [sendToken] always goes on to [sendMagicLinkEmail], after one
    lookup of the address: once the link is made, its outcome is that
    of the mailer, called with [userExists] true exactly when the store
    answered and has a user with that address.  A failed lookup is
    neither propagated nor printed. *)
Theorem sendToken_sends_whatever_the_lookup
    (getMagicLink : string -> string -> Async string)
    (sendMagicLinkEmail : string -> string -> bool -> Async unit)
    (emailAddress domainUrl confirmationLink : string) (w w1 : World) :
  getMagicLink emailAddress domainUrl w = (Resolved confirmationLink, w1) ->
  sendToken getMagicLink sendMagicLinkEmail emailAddress domainUrl w
  = sendMagicLinkEmail emailAddress confirmationLink
      match faults w1 with
      | true :: _ => false
      | _ => bool_decide (is_Some (Prisma.findUserByEmail emailAddress w1))
      end
      (with_storeCall (FindUserByEmail emailAddress) w1).
Proof.
  intros Hlink. unfold sendToken.
  unfold mbind at 1, Async_bind, andThen. rewrite Hlink.
  unfold mbind at 1, Async_bind, andThen, catch.
  unfold Prisma.getUserByEmail, Prisma.storeCall, mbind, Async_bind, andThen, gets.
  unfold Prisma.findUserByEmail.
  destruct (faults w1) as [|[] rest]; cbn [users with_storeCall]; try done;
    by destruct (List.find _ _).
Qed.

End MoreSessionProperties.

(** * Further properties of [client.server.ts] *)

Section MoreClientProperties.
Context `{Env}.
Import ClientServer.

Lemma client_getHeaders_any h headers w :
  Handle.getHeaders h headers w
  = (Resolved
       match truthy (if String.eqb (serializeCookie clientStorage (Remix.dataOf (session h) w))
                                   (initialValue h)
                     then None
                     else Some (serializeCookie clientStorage (Remix.dataOf (session h) w))) with
       | None => default (Remix.HeadersObject []) headers
       | Some value =>
           match default (Remix.HeadersObject []) headers with
           | Remix.HeadersObject entries =>
               Remix.HeadersObject (Remix.Headers_append "Set-Cookie" value entries)
           | Remix.HeadersArray pairs =>
               Remix.HeadersArray (pairs ++ [("Set-Cookie", value)])
           | Remix.HeadersRecord fields =>
               Remix.HeadersRecord (<["Set-Cookie" := value]> fields)
           end
       end, w).
Proof.
  unfold Handle.getHeaders. unfold mbind at 1, Async_bind, andThen.
  rewrite client_commit_run. cbn [fst].
  by destruct (truthy _).
Qed.

(** X15.  A client that comes back with its cookie costs nothing: when
    the cookie decodes to a session with a client id (any string, the
    empty one included), [getClientSession] draws no identifier and
    only allocates the session object; [getClientId] returns the
    cookie's id, [commit] returns [null] and [getHeaders] hands back
    the headers it was given. *)
Theorem returning_client_sets_no_cookie (request : Request) (w : World)
    (clientId : string) (headers : option Remix.HeadersInit) :
  parseCookie clientStorage (cookieHeader request) !! "clientId" = Some clientId ->
  exists h,
    let w1 := opened clientStorage request w in
    getClientSession request w = (Resolved h, w1) /\
    drawn w1 = drawn w /\
    Handle.getClientId h w1 = (Resolved clientId, w1) /\
    Handle.commit h w1 = (Resolved None, w1) /\
    Handle.getHeaders h headers w1
    = (Resolved (default (Remix.HeadersObject []) headers), w1).
Proof.
  intros Hid. eexists. cbn zeta.
  rewrite getClientSession_run. cbn zeta. rewrite Hid.
  split; [reflexivity|]. split; [reflexivity|].
  assert (Remix.dataOf (length (heap w)) (opened clientStorage request w)
          = parseCookie clientStorage (cookieHeader request)) as Hdata
    by apply dataOf_opened.
  split; [apply getClientId_present; cbn [session]; by rewrite Hdata|].
  rewrite client_getHeaders_any, client_commit_run. cbn [session initialValue].
  by rewrite Hdata, String.eqb_refl.
Qed.

End MoreClientProperties.

(** * The two [getHeaders] on one collection of headers *)

Section ChainedHeaders.
Context `{Env}.

(** X16.  When both sessions have a non-empty value to commit, passing
    a [Headers] object or an array of pairs through the client's
    [getHeaders] and then the session's adds both [Set-Cookie] entries
    after the entries already there, which are all kept (earlier
    [Set-Cookie] entries too). *)
Theorem chained_getHeaders_keeps_both (client : ClientServer.ClientHandle)
    (auth : SessionServer.SessionHandle) (w : World) (clientCookie authCookie : string)
    (entries : list (string * string)) :
  ClientServer.Handle.commit client w = (Resolved (Some clientCookie), w) ->
  SessionServer.Handle.commit auth w = (Resolved (Some authCookie), w) ->
  clientCookie ≠ "" ->
  authCookie ≠ "" ->
  let added := [("Set-Cookie", clientCookie); ("Set-Cookie", authCookie)] in
  bothHeaders client auth None w = (Resolved (Remix.HeadersObject added), w) /\
  bothHeaders client auth (Some (Remix.HeadersObject entries)) w
  = (Resolved (Remix.HeadersObject (entries ++ added)), w) /\
  bothHeaders client auth (Some (Remix.HeadersArray entries)) w
  = (Resolved (Remix.HeadersArray (entries ++ added)), w).
Proof.
  intros Hclient Hauth Hc Ha added. unfold bothHeaders, mbind, Async_bind, andThen.
  rewrite !client_getHeaders_any, !getHeaders_any.
  rewrite client_commit_run in Hclient. rewrite commit_run in Hauth.
  injection Hclient as ->. injection Hauth as ->.
  rewrite !(truthy_intro _ Hc), !(truthy_intro _ Ha).
  unfold Remix.Headers_append. cbn. by rewrite <- !app_assoc.
Qed.

(** X17.  With a plain record of headers the same chain keeps one
    cookie only: the session's [Set-Cookie] overwrites the client's
    (and any [Set-Cookie] the record had); the other fields are kept. *)
Theorem chained_getHeaders_record_keeps_last (client : ClientServer.ClientHandle)
    (auth : SessionServer.SessionHandle) (w : World) (clientCookie authCookie : string)
    (fields : gmap string string) :
  ClientServer.Handle.commit client w = (Resolved (Some clientCookie), w) ->
  SessionServer.Handle.commit auth w = (Resolved (Some authCookie), w) ->
  clientCookie ≠ "" ->
  authCookie ≠ "" ->
  bothHeaders client auth (Some (Remix.HeadersRecord fields)) w
  = (Resolved (Remix.HeadersRecord (<["Set-Cookie" := authCookie]> fields)), w).
Proof.
  intros Hclient Hauth Hc Ha. unfold bothHeaders, mbind, Async_bind, andThen.
  rewrite !client_getHeaders_any, !getHeaders_any.
  rewrite client_commit_run in Hclient. rewrite commit_run in Hauth.
  injection Hclient as ->. injection Hauth as ->.
  rewrite !(truthy_intro _ Hc), !(truthy_intro _ Ha).
  cbn. by rewrite insert_insert_eq.
Qed.

End ChainedHeaders.

(** * Properties of the blog page's list of posts *)

Section BlogProperties.
Import BlogRoute.

Variable getLeadingTeamForSlug : string -> option string.

Lemma filter_all {A} (f : A -> bool) (l : list A) :
  (forall x, f x = true) -> List.filter f l = l.
Proof.
  intros Hall. induction l as [|x l IH]; cbn; [done|].
  by rewrite Hall, IH.
Qed.

Lemma nonempty_length {A} (l : list A) : l ≠ [] -> Nat.eqb (length l) 0 = false.
Proof. by destruct l. Qed.

(** X18.  When [!leader:] teams are given and no team is both wanted
    and unwanted, the [leader:] terms change nothing: the posts kept
    are those not led by an unwanted team, the posts led by a wanted
    team being among them. *)
Theorem teamPosts_wanted_teams_redundant (leaders nonLeaders : list string)
    (allPosts : list MdxListItem) :
  nonLeaders ≠ [] ->
  (forall team, includes leaders team = true -> includes nonLeaders team = false) ->
  teamPosts getLeadingTeamForSlug leaders nonLeaders allPosts
  = teamPosts getLeadingTeamForSlug [] nonLeaders allPosts.
Proof.
  intros Hsome Hdisjoint. unfold teamPosts.
  rewrite (nonempty_length _ Hsome), orb_true_r. cbn [length Nat.eqb negb orb andb].
  apply List.filter_ext. intros post. cbn zeta.
  destruct (truthy (getLeadingTeamForSlug (slug post))) as [team|]; cbn.
  - destruct (includes leaders team) eqn:Hwanted;
      [|by rewrite andb_false_r].
    rewrite andb_true_r, (Hdisjoint _ Hwanted).
    by destruct (Nat.eqb (length leaders) 0).
  - by rewrite andb_false_r.
Qed.

(** X19.  When every unwanted team is also wanted (as in
    [leader:red !leader:red]), the filter keeps every post. *)
Theorem teamPosts_wanted_and_unwanted_keeps_all (leaders nonLeaders : list string)
    (allPosts : list MdxListItem) :
  nonLeaders ≠ [] ->
  (forall team, includes nonLeaders team = true -> includes leaders team = true) ->
  teamPosts getLeadingTeamForSlug leaders nonLeaders allPosts = allPosts.
Proof.
  intros Hsome Hboth. unfold teamPosts.
  rewrite (nonempty_length _ Hsome), orb_true_r.
  apply filter_all. intros post. cbn zeta.
  destruct (truthy (getLeadingTeamForSlug (slug post))) as [team|]; cbn.
  - destruct (includes nonLeaders team) eqn:Hunwanted; cbn.
    + rewrite (Hboth _ Hunwanted), andb_true_r.
      destruct leaders as [|t rest]; [|done].
      specialize (Hboth _ Hunwanted). done.
    + by destruct (negb (Nat.eqb (length leaders) 0) && includes leaders team).
  - by rewrite andb_false_r.
Qed.

(** X20.  During a search the "Load more articles" button is missing
    exactly when every matching post is listed. *)
Theorem searching_no_more_iff_all_listed (matchingPosts : list MdxListItem)
    (indexToShow : nat) (recommended : option MdxListItem) :
  hasMorePosts true matchingPosts indexToShow = false
  <-> posts true matchingPosts indexToShow recommended = matchingPosts.
Proof.
  unfold hasMorePosts, posts. rewrite Z.ltb_ge. split.
  - intros Hall. apply take_ge. lia.
  - intros Hall. apply (f_equal length) in Hall.
    rewrite length_take in Hall. lia.
Qed.

(** X21.  Loading more only adds at the end: the posts listed before
    the click are a prefix of those listed after it, in a search or
    not. *)
Theorem loadMore_extends_the_list (isSearching : bool)
    (matchingPosts : list MdxListItem) (indexToShow : nat)
    (recommended : option MdxListItem) :
  posts isSearching matchingPosts indexToShow recommended
  `prefix_of` posts isSearching matchingPosts (loadMore indexToShow) recommended.
Proof.
  unfold posts, loadMore.
  rewrite <- (take_take_drop matchingPosts indexToShow PAGE_SIZE).
  destruct isSearching.
  - by eexists.
  - rewrite List.filter_app. by eexists.
Qed.

(** X22.  Outside a search, when the button is missing, every matching
    post is listed except possibly the last one and the recommended
    one. *)
Theorem browsing_no_more_lists_all_but_last (matchingPosts : list MdxListItem)
    (indexToShow : nat) (recommended : option MdxListItem)
    (i : nat) (post : MdxListItem) :
  hasMorePosts false matchingPosts indexToShow = false ->
  matchingPosts !! i = Some post ->
  S i < length matchingPosts ->
  (forall r, recommended = Some r -> slug post ≠ slug r) ->
  post ∈ posts false matchingPosts indexToShow recommended.
Proof.
  unfold hasMorePosts, posts. rewrite Z.ltb_ge.
  intros Hmore Hpost Hlast Hother.
  apply list_elem_of_In, List.filter_In. split.
  - apply list_elem_of_In, list_elem_of_lookup. exists i.
    rewrite lookup_take_lt by lia. exact Hpost.
  - destruct recommended as [r|]; [|done].
    apply negb_true_iff. apply String.eqb_neq. by apply Hother.
Qed.

End BlogProperties.

(** * The further properties on the concrete instance *)

Section MoreInstances.
Import SessionServer Demo.

Lemma resolved_user_sets_no_cookie_witness :
  let h := mkHandle 0 "KCD_root_session=s1; Path=/; SameSite=Lax" in
  let w1 := opened sessionStorage signedIn world in
  getSession signedIn world = (Resolved h, w1) /\
  Handle.getUser h w1 = (Resolved (Some kody), snd (Handle.getUser h w1)) /\
  Handle.getHeaders h (Some (Remix.HeadersArray [("Vary", "Cookie")]))
    (snd (Handle.getUser h w1))
  = (Resolved (Remix.HeadersArray [("Vary", "Cookie")]), snd (Handle.getUser h w1)).
Proof.
  intros h w1.
  assert (getSession signedIn world = (Resolved h, w1)) as Hopen
    by (vm_compute; reflexivity).
  assert (Handle.getUser h w1 = (Resolved (Some kody), snd (Handle.getUser h w1)))
    as Huser by (vm_compute; reflexivity).
  split; [exact Hopen|]. split; [exact Huser|].
  apply (resolved_user_sets_no_cookie signedIn world w1 _ h kody
           (Some (Remix.HeadersArray [("Vary", "Cookie")])) Hopen Huser).
Defined.

Lemma signOut_twice_witness :
  let h := mkHandle 0 "KCD_root_session=s1; Path=/; SameSite=Lax" in
  let w := opened sessionStorage signedIn world in
  is_Some (heap w !! session h) /\
  (Handle.signOut h;; Handle.signOut h) w = Handle.signOut h w.
Proof.
  intros h w.
  assert (is_Some (heap w !! session h)) as Hlive by (eexists; reflexivity).
  split; [exact Hlive|]. apply (signOut_twice h w Hlive).
Defined.

Lemma signOut_then_getUser_witness :
  let h := mkHandle 0 "KCD_root_session=s1; Path=/; SameSite=Lax" in
  let w := opened sessionStorage signedIn world in
  is_Some (heap w !! session h) /\
  exists w1,
    Handle.signOut h w = (Resolved tt, w1) /\
    Handle.getUser h w1 = (Resolved None, w1).
Proof.
  intros h w.
  assert (is_Some (heap w !! session h)) as Hlive by (eexists; reflexivity).
  split; [exact Hlive|].
  destruct (signOut_then_getUser h w Hlive) as (w1 & sid & Hout & _ & _ & _ & Huser).
  exists w1. split; [exact Hout|exact Huser].
Defined.

Lemma singIn_then_signOut_witness :
  let h := mkHandle 0 cleared in
  let w := opened sessionStorage anonymous world in
  Handle.singIn h kody w = (Resolved tt, snd (Handle.singIn h kody w)) /\
  exists w2,
    Handle.signOut h (snd (Handle.singIn h kody w)) = (Resolved tt, w2) /\
    Remix.dataOf 0 w2 = ∅ /\
    detached w2 = ["uuid-0"].
Proof.
  intros h w.
  assert (is_Some (heap w !! session h)) as Hlive by (eexists; reflexivity).
  assert (Handle.singIn h kody w = (Resolved tt, snd (Handle.singIn h kody w)))
    as Hsign by (vm_compute; reflexivity).
  assert (entropy w (drawn w) ≠ "") as Hid by (vm_compute; discriminate).
  split; [exact Hsign|].
  destruct (singIn_then_signOut h kody w _ Hlive Hsign Hid)
    as (w2 & Hout & Hdata & Hdetached & _).
  exists w2. split; [exact Hout|]. split; [exact Hdata|exact Hdetached].
Defined.

Lemma requireAdminUser_is_requireUser_witness :
  getUser admin staffed = (Resolved (Some kent), snd (getUser admin staffed)) /\
  user_role kent = "ADMIN" /\
  requireAdminUser admin page staffed = requireUser admin page staffed.
Proof.
  assert (getUser admin staffed = (Resolved (Some kent), snd (getUser admin staffed)))
    as Huser by (vm_compute; reflexivity).
  split; [exact Huser|]. split; [reflexivity|].
  apply (requireAdminUser_is_requireUser admin page staffed).
  intros user w1 Hfound. rewrite Huser in Hfound. by injection Hfound as <- _.
Defined.

Lemma sessions_do_not_share_state_witness :
  let h1 := mkHandle 0 "KCD_root_session=s1; Path=/; SameSite=Lax" in
  let h2 := mkHandle 1 "KCD_root_session=s1; Path=/; SameSite=Lax" in
  let w1 := opened sessionStorage signedIn world in
  let w2 := opened sessionStorage signedIn w1 in
  getSession signedIn world = (Resolved h1, w1) /\
  getSession signedIn w1 = (Resolved h2, w2) /\
  exists w3,
    Handle.signOut h1 w2 = (Resolved tt, w3) /\
    Handle.commit h2 w3 = (Resolved None, w3).
Proof.
  intros h1 h2 w1 w2.
  assert (getSession signedIn world = (Resolved h1, w1)) as Hfirst
    by (vm_compute; reflexivity).
  assert (getSession signedIn w1 = (Resolved h2, w2)) as Hsecond
    by (vm_compute; reflexivity).
  split; [exact Hfirst|]. split; [exact Hsecond|].
  destruct (sessions_do_not_share_state signedIn signedIn world w1 w2 h1 h2
              Hfirst Hsecond) as ((w3 & Hout & _ & Hcommit) & _).
  exists w3. split; [exact Hout|exact Hcommit].
Defined.

Lemma detached_deletions_never_reject_witness :
  let w := snd (requireUser signedIn page outage) in
  detached w = ["s1"] /\
  faults w = [] /\
  exists w',
    settleDetached w = (Resolved tt, w') /\
    detached w' = [] /\
    sessionRecords w' !! "s1" = None /\
    sessionRecords w' !! "s0" = sessionRecords w !! "s0".
Proof.
  intros w.
  assert (detached w = ["s1"]) as Hpending by (vm_compute; reflexivity).
  assert (faults w = []) as Hfaults by (vm_compute; reflexivity).
  split; [exact Hpending|]. split; [exact Hfaults|].
  destruct (detached_deletions_never_reject w)
    as (w' & Hrun & Hdetached & _ & _ & _ & Hframe & Hclean).
  exists w'. split; [exact Hrun|]. split; [exact Hdetached|]. split.
  - apply (Hclean Hfaults). rewrite Hpending. apply list_elem_of_here.
  - apply Hframe. rewrite Hpending.
    apply not_elem_of_cons. split; [discriminate|apply not_elem_of_nil].
Defined.

Lemma magic_link_signs_in_witness :
  let request := magic "kody@example.com" in
  validateMagicLinkAt (url request) (clock world) = Resolved "kody@example.com" /\
  Prisma.getUserByEmail "kody@example.com" world
  = (Resolved (Some kody), with_storeCall (FindUserByEmail "kody@example.com") world) /\
  exists h w2,
    getUserSessionFromMagicLink request world = (Resolved (Some h), w2) /\
    Remix.dataOf (session h) w2 = {[ sessionIdKey := "uuid-0" ]} /\
    Handle.commit h w2
    = (Resolved (Some "KCD_root_session=uuid-0; Path=/; SameSite=Lax"), w2).
Proof.
  intros request.
  assert (validateMagicLinkAt (url request) (clock world) = Resolved "kody@example.com")
    as Hvalid by (vm_compute; reflexivity).
  assert (Prisma.getUserByEmail "kody@example.com" world
          = (Resolved (Some kody),
             with_storeCall (FindUserByEmail "kody@example.com") world))
    as Hfound by (vm_compute; reflexivity).
  split; [exact Hvalid|]. split; [exact Hfound|].
  destruct (magic_link_signs_in request world _ "kody@example.com" kody Hvalid Hfound)
    as (h & w2 & Hrun & _ & Hdata & _ & _ & Hcommit);
    [vm_compute; discriminate|vm_compute; reflexivity|].
  exists h, w2. split; [exact Hrun|]. split; [exact Hdata|].
  apply Hcommit. vm_compute. discriminate.
Defined.

Lemma live_session_is_authenticated_witness :
  parseCookie sessionStorage (cookieHeader signedIn) !! sessionIdKey = Some "s1" /\
  sessionRecords world !! "s1" = Some (mkSessionRecord "s1" "u1" 5000) /\
  fst (requireUser signedIn page world)
  = Resolved (Remix.mkResponse 200 [] "kody@example.com").
Proof.
  assert (parseCookie sessionStorage (cookieHeader signedIn) !! sessionIdKey = Some "s1")
    as Hkey by (vm_compute; reflexivity).
  assert (sessionRecords world !! "s1" = Some (mkSessionRecord "s1" "u1" 5000))
    as Hrecord by (vm_compute; reflexivity).
  split; [exact Hkey|]. split; [exact Hrecord|].
  assert ("s1" ≠ "") as Hne by discriminate.
  assert (clock world <= 5000)%Z as Hlive by (vm_compute; discriminate).
  assert (Prisma.findUserById "u1" world = Some kody) as Howner
    by (vm_compute; reflexivity).
  assert (storeAnswers world) as Hanswers by (vm_compute; discriminate).
  destruct (live_session_is_authenticated signedIn page world "s1"
              (mkSessionRecord "s1" "u1" 5000) kody
              Hkey Hne Hrecord Hlive Howner Hanswers) as [_ Hrun].
  by rewrite Hrun.
Defined.

Lemma magic_link_round_trip_witness :
  let request := magic "kody@example.com" in
  let next := mkRequest "https://example.com/me"
                (Some "KCD_root_session=uuid-0; Path=/; SameSite=Lax") in
  exists h w2,
    getUserSessionFromMagicLink request world = (Resolved (Some h), w2) /\
    fst (getUser next w2) = Resolved (Some kody).
Proof.
  intros request next.
  destruct (magic_link_round_trip request next world
              (with_storeCall (FindUserByEmail "kody@example.com") world)
              "kody@example.com" kody kody (fun value => value))
    as (h & w2 & Hrun & _ & Hnext); try (vm_compute; reflexivity);
    try (vm_compute; discriminate).
  exists h, w2. split; [exact Hrun|].
  rewrite (Hnext w2); try reflexivity.
  - assert (clock w2 = clock world) as ->.
    { unfold request in Hrun. vm_compute in Hrun. by injection Hrun as _ <-. }
    vm_compute. discriminate.
  - unfold request in Hrun. vm_compute in Hrun. injection Hrun as _ <-.
    vm_compute. discriminate.
Defined.

Lemma magic_link_lookup_failure_propagates_witness :
  let request := magic "kody@example.com" in
  Prisma.getUserByEmail "kody@example.com" outage
  = (Rejected "store unavailable", snd (Prisma.getUserByEmail "kody@example.com" outage)) /\
  fst (getUserSessionFromMagicLink request outage) = Rejected "store unavailable".
Proof.
  intros request.
  assert (Prisma.getUserByEmail "kody@example.com" outage
          = (Rejected "store unavailable",
             snd (Prisma.getUserByEmail "kody@example.com" outage)))
    as Hlookup by (vm_compute; reflexivity).
  split; [exact Hlookup|].
  assert (validateMagicLinkAt (url request) (clock outage) = Resolved "kody@example.com")
    as Hvalid by (vm_compute; reflexivity).
  destruct (magic_link_lookup_failure_propagates request outage _
              "kody@example.com" "store unavailable" Hvalid Hlookup) as [Hrun _].
  by rewrite Hrun.
Defined.

Lemma magic_link_create_failure_propagates_witness :
  let request := magic "kody@example.com" in
  let w1 := with_storeCall (FindUserByEmail "kody@example.com") flaky in
  Prisma.getUserByEmail "kody@example.com" flaky = (Resolved (Some kody), w1) /\
  fst (Prisma.createSession (user_id kody) (opened sessionStorage request w1))
  = Rejected "store unavailable" /\
  fst (getUserSessionFromMagicLink request flaky) = Rejected "store unavailable" /\
  sessionRecords (snd (getUserSessionFromMagicLink request flaky)) = sessionRecords flaky.
Proof.
  intros request w1.
  assert (Prisma.getUserByEmail "kody@example.com" flaky = (Resolved (Some kody), w1))
    as Hfound by (vm_compute; reflexivity).
  assert (Prisma.createSession (user_id kody) (opened sessionStorage request w1)
          = (Rejected "store unavailable",
             snd (Prisma.createSession (user_id kody) (opened sessionStorage request w1))))
    as Hcreate by (vm_compute; reflexivity).
  split; [exact Hfound|]. split; [by rewrite Hcreate|].
  assert (validateMagicLinkAt (url request) (clock flaky) = Resolved "kody@example.com")
    as Hvalid by (vm_compute; reflexivity).
  destruct (magic_link_create_failure_propagates request flaky w1 _
              "kody@example.com" kody "store unavailable" Hvalid Hfound Hcreate)
    as (Hrun & _ & Hrecords).
  rewrite Hrun. split; [reflexivity|exact Hrecords].
Defined.

Lemma sendToken_sends_whatever_the_lookup_witness :
  makeLink "kody@example.com" "https://example.com" outage
  = (Resolved "https://example.com/magic?email=kody@example.com", outage) /\
  sendToken makeLink printMail "kody@example.com" "https://example.com" outage
  = printMail "kody@example.com" "https://example.com/magic?email=kody@example.com" false
      (with_storeCall (FindUserByEmail "kody@example.com") outage).
Proof.
  assert (makeLink "kody@example.com" "https://example.com" outage
          = (Resolved "https://example.com/magic?email=kody@example.com", outage))
    as Hlink by (vm_compute; reflexivity).
  split; [exact Hlink|].
  apply (sendToken_sends_whatever_the_lookup makeLink printMail
           "kody@example.com" "https://example.com" _ outage outage Hlink).
Defined.

End MoreInstances.

Section MoreClientInstances.
Import ClientServer Demo.

Lemma returning_client_sets_no_cookie_witness :
  parseCookie clientStorage (cookieHeader stale) !! "clientId" = Some "c7" /\
  exists h,
    getClientSession stale world = (Resolved h, opened clientStorage stale world) /\
    Handle.commit h (opened clientStorage stale world)
    = (Resolved None, opened clientStorage stale world).
Proof.
  assert (parseCookie clientStorage (cookieHeader stale) !! "clientId" = Some "c7")
    as Hid by (vm_compute; reflexivity).
  split; [exact Hid|].
  destruct (returning_client_sets_no_cookie stale world "c7" None Hid)
    as (h & Hopen & _ & _ & Hcommit & _).
  exists h. split; [exact Hopen|exact Hcommit].
Defined.

Lemma chained_getHeaders_keeps_both_witness :
  Handle.commit visitor sideBySide = (Resolved (Some issued), sideBySide) /\
  SessionServer.Handle.commit leaving sideBySide = (Resolved (Some cleared), sideBySide) /\
  bothHeaders visitor leaving (Some (Remix.HeadersArray [("Vary", "Cookie")])) sideBySide
  = (Resolved (Remix.HeadersArray
                 [("Vary", "Cookie"); ("Set-Cookie", issued); ("Set-Cookie", cleared)]),
     sideBySide).
Proof.
  assert (Handle.commit visitor sideBySide = (Resolved (Some issued), sideBySide))
    as Hclient by (vm_compute; reflexivity).
  assert (SessionServer.Handle.commit leaving sideBySide
          = (Resolved (Some cleared), sideBySide))
    as Hauth by (vm_compute; reflexivity).
  split; [exact Hclient|]. split; [exact Hauth|].
  destruct (chained_getHeaders_keeps_both visitor leaving sideBySide issued cleared
              [("Vary", "Cookie")] Hclient Hauth) as (_ & _ & Harray);
    [vm_compute; discriminate|vm_compute; discriminate|].
  exact Harray.
Defined.

Lemma chained_getHeaders_record_keeps_last_witness :
  Handle.commit visitor sideBySide = (Resolved (Some issued), sideBySide) /\
  SessionServer.Handle.commit leaving sideBySide = (Resolved (Some cleared), sideBySide) /\
  bothHeaders visitor leaving (Some (Remix.HeadersRecord {[ "Vary" := "Cookie" ]})) sideBySide
  = (Resolved (Remix.HeadersRecord (<["Set-Cookie" := cleared]> {[ "Vary" := "Cookie" ]})),
     sideBySide).
Proof.
  assert (Handle.commit visitor sideBySide = (Resolved (Some issued), sideBySide))
    as Hclient by (vm_compute; reflexivity).
  assert (SessionServer.Handle.commit leaving sideBySide
          = (Resolved (Some cleared), sideBySide))
    as Hauth by (vm_compute; reflexivity).
  split; [exact Hclient|]. split; [exact Hauth|].
  apply (chained_getHeaders_record_keeps_last visitor leaving sideBySide issued cleared
           _ Hclient Hauth); vm_compute; discriminate.
Defined.

End MoreClientInstances.

Section BlogInstances.
Import BlogRoute Demo.

Lemma teamPosts_wanted_teams_redundant_witness :
  teamPosts leadingTeam ["RED"] ["BLUE"] blogPosts
  = teamPosts leadingTeam [] ["BLUE"] blogPosts /\
  teamPosts leadingTeam [] ["BLUE"] blogPosts
  = [mkPost "a" (Some ["react"]); mkPost "c" (Some ["testing"])].
Proof.
  split; [|vm_compute; reflexivity].
  apply (teamPosts_wanted_teams_redundant leadingTeam ["RED"] ["BLUE"] blogPosts).
  - discriminate.
  - intros team Hwanted. unfold includes in *. cbn [existsb] in *.
    rewrite orb_false_r in Hwanted. apply String.eqb_eq in Hwanted.
    by subst team.
Defined.

Lemma teamPosts_wanted_and_unwanted_keeps_all_witness :
  teamPosts leadingTeam ["RED"] ["RED"] blogPosts = blogPosts.
Proof.
  apply (teamPosts_wanted_and_unwanted_keeps_all leadingTeam ["RED"] ["RED"] blogPosts).
  - discriminate.
  - intros team Hunwanted. exact Hunwanted.
Defined.

Lemma searching_no_more_iff_all_listed_witness :
  hasMorePosts true blogPosts 12 = false /\
  posts true blogPosts 12 None = blogPosts.
Proof.
  assert (hasMorePosts true blogPosts 12 = false) as Hmore by reflexivity.
  split; [exact Hmore|].
  apply (proj1 (searching_no_more_iff_all_listed blogPosts 12 None) Hmore).
Defined.

Lemma browsing_no_more_lists_all_but_last_witness :
  hasMorePosts false blogPosts 2 = false /\
  mkPost "b" None ∈ posts false blogPosts 2 (Some (mkPost "a" (Some ["react"]))) /\
  mkPost "c" (Some ["testing"]) ∉ posts false blogPosts 2 (Some (mkPost "a" (Some ["react"]))).
Proof.
  assert (hasMorePosts false blogPosts 2 = false) as Hmore by reflexivity.
  split; [exact Hmore|]. split.
  - apply (browsing_no_more_lists_all_but_last blogPosts 2 _ 1 _ Hmore).
    + reflexivity.
    + cbn. lia.
    + intros r [= <-]. discriminate.
  - vm_compute. intros Hin. apply list_elem_of_In in Hin.
    destruct Hin as [Heq|[]]. discriminate.
Defined.

End BlogInstances.
